(** * IG comment-to-DM automation backend: webhook handlers

    A shallow embedding of the webhook handlers of [main.py]
    ([verify_webhook], [on_comment], [on_dm]) over the document schemas of
    [schemas.py], and the properties of the handlers stated in the
    specification.

    Conventions.
    - A Python [str] is a Rocq [string] whose characters are the code points
      0..255; [lower], [strip], [in] and [int] below are Python's operations
      on that range.
    - A handler is a computation in the state monad [M] over the document
      store; [verify_webhook], which can raise, returns an [outcome]. *)

From Stdlib Require Import Bool List ZArith Lia Ascii String DecimalString.
From Stdlib Require Decimal DecimalNat DecimalFacts.
From Stdlib Require Import Permutation.
Import ListNotations.

Local Open Scope string_scope.
Local Open Scope Z_scope.

(** ** Python string primitives *)

Module PyStr.

(** [c.isupper()] for a code point below 256: A-Z, and the Latin-1 capitals
    U+00C0..U+00DE without the multiplication sign U+00D7. *)
Definition is_upper (c : ascii) : bool :=
  let n := nat_of_ascii c in
  ((65 <=? n) && (n <=? 90))%nat
  || ((192 <=? n) && (n <=? 222) && negb (n =? 215))%nat.

Definition lower_char (c : ascii) : ascii :=
  if is_upper c then ascii_of_nat (nat_of_ascii c + 32) else c.

(** [s.lower()] *)
Fixpoint lower (s : string) : string :=
  match s with
  | EmptyString => EmptyString
  | String c r => String (lower_char c) (lower r)
  end.

(** [c.isspace()] for a code point below 256: TAB..CR, FS..US, SPACE,
    NEL (U+0085) and NBSP (U+00A0). *)
Definition is_space (c : ascii) : bool :=
  let n := nat_of_ascii c in
  (((9 <=? n) && (n <=? 13)) || ((28 <=? n) && (n <=? 32))
   || (n =? 133) || (n =? 160))%nat.

Fixpoint lstrip (s : string) : string :=
  match s with
  | EmptyString => EmptyString
  | String c r => if is_space c then lstrip r else s
  end.

Fixpoint rstrip (s : string) : string :=
  match s with
  | EmptyString => EmptyString
  | String c r =>
      match rstrip r with
      | EmptyString => if is_space c then EmptyString else String c EmptyString
      | r' => String c r'
      end
  end.

(** [s.strip()] *)
Definition strip (s : string) : string := rstrip (lstrip s).

(** [k in s] on strings: [k] occurs in [s] as a contiguous run. *)
Fixpoint contains (k s : string) : bool :=
  prefix k s
  || match s with
     | EmptyString => false
     | String _ r => contains k r
     end.

(** Truth value of a string, and of an optional one ([None] is falsy). *)
Definition truthy (s : string) : bool :=
  match s with EmptyString => false | _ => true end.

Definition truthy_opt (o : option string) : bool :=
  match o with None => false | Some s => truthy s end.

(** *** [int(s)], base 10 *)

Definition is_digit (c : ascii) : bool :=
  let n := nat_of_ascii c in ((48 <=? n) && (n <=? 57))%nat.

Definition digit_val (c : ascii) : Z := Z.of_nat (nat_of_ascii c) - 48.

(** Default [sys.int_max_str_digits]: a longer numeral is refused. *)
Definition int_max_str_digits : nat := 4300.

(** The digits after the first one: a digit, or one underscore followed by
    a digit.  Returns the value and the number of digits read. *)
Fixpoint int_tail (s : string) (acc : Z) (n : nat) : option (Z * nat) :=
  match s with
  | EmptyString => Some (acc, n)
  | String c r =>
      if is_digit c then int_tail r (acc * 10 + digit_val c) (S n)
      else if Ascii.eqb c "_"%char then
        match r with
        | String d r' =>
            if is_digit d then int_tail r' (acc * 10 + digit_val d) (S n)
            else None
        | EmptyString => None
        end
      else None
  end.

Definition int_unsigned (s : string) : option Z :=
  match s with
  | String c r =>
      if is_digit c then
        match int_tail r (digit_val c) 1 with
        | Some (v, n) => if (n <=? int_max_str_digits)%nat then Some v else None
        | None => None
        end
      else None
  | EmptyString => None
  end.

(** The whitespace [int()] skips around a numeral on code points below 256:
    TAB..CR and SPACE, and NEL (U+0085) and NBSP (U+00A0), which are turned
    into spaces first.  The separators FS..US are not skipped. *)
Definition is_int_space (c : ascii) : bool :=
  let n := nat_of_ascii c in
  (((9 <=? n) && (n <=? 13)) || (n =? 32) || (n =? 133) || (n =? 160))%nat.

Fixpoint lstrip_by (p : ascii -> bool) (s : string) : string :=
  match s with
  | EmptyString => EmptyString
  | String c r => if p c then lstrip_by p r else s
  end.

Fixpoint rstrip_by (p : ascii -> bool) (s : string) : string :=
  match s with
  | EmptyString => EmptyString
  | String c r =>
      match rstrip_by p r with
      | EmptyString => if p c then EmptyString else String c EmptyString
      | r' => String c r'
      end
  end.

Definition int_strip (s : string) : string :=
  rstrip_by is_int_space (lstrip_by is_int_space s).

(** [int(s)] for a string [s]; [None] stands for [ValueError]. *)
Definition int (s : string) : option Z :=
  match int_strip s with
  | String "-"%char r => option_map Z.opp (int_unsigned r)
  | String "+"%char r => int_unsigned r
  | r => int_unsigned r
  end.

End PyStr.

(** ** Webhook verification handshake *)

Inductive exn : Type :=
| HTTPException (status_code : Z) (detail : string)
| ValueError.

Inductive outcome (A : Type) : Type :=
| Return (a : A)
| Raise (e : exn).
Arguments Return {A} a.
Arguments Raise {A} e.

(** [int(hub_challenge or 0)] *)
Definition int_or_0 (hub_challenge : option string) : outcome Z :=
  match hub_challenge with
  | Some (String c r) =>
      match PyStr.int (String c r) with
      | Some n => Return n
      | None => Raise ValueError
      end
  | _ => Return 0
  end.

Definition verify_webhook (hub_mode hub_token hub_challenge : option string)
  : outcome Z :=
  if match hub_mode with Some m => String.eqb m "subscribe" | None => false end
     && PyStr.truthy_opt hub_token
  then int_or_0 hub_challenge
  else Raise (HTTPException 403 "Verification failed").

(** ** Documents ([schemas.py]) *)

#[local] Set Warnings "-register-all".

(** [Any]-typed values: event payloads, free-form bags, and the dicts the
    handlers return. *)
Inductive value : Type :=
| VNone
| VBool (b : bool)
| VInt (z : Z)
| VStr (s : string)
| VList (l : list value)
| VDict (d : list (string * value)).

Module Assignment.
Record t : Type := mk
  { accountId : string; igMediaId : string; flowId : string }.
End Assignment.

Module FlowNode.
Record t : Type := mk
  { id : string; type : string; data : list (string * value) }.
End FlowNode.

Module FlowEdge.
Record t : Type := mk
  { id : string; source : string; target : string;
    condition : option string }.
End FlowEdge.

Module Flow.
Record t : Type := mk
  { accountId : string;
    name : string;
    description : option string;
    keywords : list string;
    nodes : list FlowNode.t;
    edges : list FlowEdge.t;
    variables : list (string * value);
    status : string;
    version : Z }.
End Flow.

Module IGUser.
Record t : Type := mk
  { accountId : string;
    igUserId : string;
    username : option string;
    followerStatus : option string;
    tags : list string;
    attributes : list (string * value);
    lastInteractionAt : option Z }.

(** [IGUser(accountId=.., igUserId=.., username=..)]: the other fields
    take the defaults of the schema. *)
Definition new (accountId igUserId : string) (username : option string) : t :=
  mk accountId igUserId username None [] [] None.
End IGUser.

Module Message.
Record t : Type := mk { role : string; text : string }.
End Message.

(** A conversation document as the handlers write it: a dict literal with
    the keys [accountId], [igUserId] and [messages]. *)
Module Conversation.
Record t : Type := mk
  { accountId : string; igUserId : string; messages : list Message.t }.
End Conversation.

Module Event.
Record t : Type := mk
  { type : string; accountId : string; payload : list (string * value) }.
End Event.

(** ** Request bodies ([main.py]) *)

Module CommentEvent.
Record t : Type := mk
  { accountId : string;
    igMediaId : string;
    igUserId : string;
    username : option string;
    text : string }.

Definition model_dump (ev : t) : list (string * value) :=
  [ ("accountId", VStr (accountId ev));
    ("igMediaId", VStr (igMediaId ev));
    ("igUserId", VStr (igUserId ev));
    ("username", match username ev with Some u => VStr u | None => VNone end);
    ("text", VStr (text ev)) ].
End CommentEvent.

Module DMEvent.
Record t : Type := mk
  { accountId : string; igUserId : string; text : string }.

Definition model_dump (ev : t) : list (string * value) :=
  [ ("accountId", VStr (accountId ev));
    ("igUserId", VStr (igUserId ev));
    ("text", VStr (text ev)) ].
End DMEvent.

(** ** The document store *)

(** A stored document: the store-generated identifier and the document. *)
Record doc (A : Type) : Type := mkdoc { _id : string; body : A }.
Arguments mkdoc {A} _ _.
Arguments _id {A} d.
Arguments body {A} d.

(** The collections the webhook handlers touch, indexed by the type of
    their documents. *)
Module Col.
Inductive t : Type -> Type :=
| assignment : t Assignment.t
| flow : t Flow.t
| iguser : t IGUser.t
| conversation : t Conversation.t
| event : t Event.t.
End Col.

Record Store : Type := mkStore
  { assignments : list (doc Assignment.t);
    flows : list (doc Flow.t);
    igusers : list (doc IGUser.t);
    conversations : list (doc Conversation.t);
    events : list (doc Event.t);
    next_id : nat }.

Definition empty_store : Store := mkStore [] [] [] [] [] 0.

Definition coll {A : Type} (c : Col.t A) : Store -> list (doc A) :=
  match c in Col.t A return Store -> list (doc A) with
  | Col.assignment => assignments
  | Col.flow => flows
  | Col.iguser => igusers
  | Col.conversation => conversations
  | Col.event => events
  end.

(** The string held by field [k] of a document, for the equality filters;
    [None] when the field is absent or holds no string. *)
Definition field {A : Type} (c : Col.t A) (k : string) : doc A -> option string :=
  match c in Col.t A return doc A -> option string with
  | Col.assignment => fun d =>
      if String.eqb k "_id" then Some (_id d)
      else if String.eqb k "accountId" then Some (Assignment.accountId (body d))
      else if String.eqb k "igMediaId" then Some (Assignment.igMediaId (body d))
      else if String.eqb k "flowId" then Some (Assignment.flowId (body d))
      else None
  | Col.flow => fun d =>
      if String.eqb k "_id" then Some (_id d)
      else if String.eqb k "accountId" then Some (Flow.accountId (body d))
      else if String.eqb k "name" then Some (Flow.name (body d))
      else if String.eqb k "description" then Flow.description (body d)
      else if String.eqb k "status" then Some (Flow.status (body d))
      else None
  | Col.iguser => fun d =>
      if String.eqb k "_id" then Some (_id d)
      else if String.eqb k "accountId" then Some (IGUser.accountId (body d))
      else if String.eqb k "igUserId" then Some (IGUser.igUserId (body d))
      else if String.eqb k "username" then IGUser.username (body d)
      else if String.eqb k "followerStatus" then IGUser.followerStatus (body d)
      else None
  | Col.conversation => fun d =>
      if String.eqb k "_id" then Some (_id d)
      else if String.eqb k "accountId" then Some (Conversation.accountId (body d))
      else if String.eqb k "igUserId" then Some (Conversation.igUserId (body d))
      else None
  | Col.event => fun d =>
      if String.eqb k "_id" then Some (_id d)
      else if String.eqb k "type" then Some (Event.type (body d))
      else if String.eqb k "accountId" then Some (Event.accountId (body d))
      else None
  end.

(** An equality filter [{k1: v1, ...}] with string values. *)
Definition filter_dict : Type := list (string * string).

Definition matches {A : Type} (c : Col.t A) (f : filter_dict) (d : doc A) : bool :=
  forallb (fun kv => match field c (fst kv) d with
                     | Some s => String.eqb s (snd kv)
                     | None => false
                     end) f.

(** Modelled from the spec: the store's [find(collectionName, filter)]
    ([database.py] is not part of the sources).  The documents of the
    collection that agree with the filter on every key, in insertion order. *)
Definition find {A : Type} (c : Col.t A) (f : filter_dict) (st : Store)
  : list (doc A) :=
  filter (matches c f) (coll c st).

Definition fresh_id (st : Store) : string :=
  NilZero.string_of_uint (Nat.to_uint (next_id st)).

(** Modelled from the spec: the store's [insert(collectionName, document)]
    ([database.py] is not part of the sources).  The document is appended to
    its collection under a fresh identifier; nothing else changes. *)
Definition insert {A : Type} (c : Col.t A) : A -> Store -> Store :=
  match c in Col.t A return A -> Store -> Store with
  | Col.assignment => fun a st =>
      mkStore (assignments st ++ [mkdoc (fresh_id st) a]) (flows st) (igusers st)
              (conversations st) (events st) (S (next_id st))
  | Col.flow => fun a st =>
      mkStore (assignments st) (flows st ++ [mkdoc (fresh_id st) a]) (igusers st)
              (conversations st) (events st) (S (next_id st))
  | Col.iguser => fun a st =>
      mkStore (assignments st) (flows st) (igusers st ++ [mkdoc (fresh_id st) a])
              (conversations st) (events st) (S (next_id st))
  | Col.conversation => fun a st =>
      mkStore (assignments st) (flows st) (igusers st)
              (conversations st ++ [mkdoc (fresh_id st) a]) (events st)
              (S (next_id st))
  | Col.event => fun a st =>
      mkStore (assignments st) (flows st) (igusers st) (conversations st)
              (events st ++ [mkdoc (fresh_id st) a]) (S (next_id st))
  end.

(** ** Handlers as store computations *)

Definition M (A : Type) : Type := Store -> A * Store.

Definition ret {A : Type} (a : A) : M A := fun st => (a, st).

Definition bind {A B : Type} (m : M A) (k : A -> M B) : M B :=
  fun st => let (a, st') := m st in k a st'.

Notation "x <- m ;; k" := (bind m (fun x => k))
  (at level 61, m at next level, right associativity).
Notation "m ;;; k" := (bind m (fun _ => k))
  (at level 61, right associativity).

(** [get_documents(collection_name, filter_dict)] *)
Definition get_documents {A : Type} (c : Col.t A) (f : filter_dict)
  : M (list (doc A)) :=
  fun st => (find c f st, st).

(** [create_document(collection_name, data)]: returns the new identifier. *)
Definition create_document {A : Type} (c : Col.t A) (data : A) : M string :=
  fun st => (fresh_id st, insert c data st).

Definition result (m : M value) (st : Store) : value := fst (m st).
Definition store_after {A : Type} (m : M A) (st : Store) : Store := snd (m st).

(** ** [POST /webhook/comment] *)

Definition not_processed (reason : string) : value :=
  VDict [("processed", VBool false); ("reason", VStr reason)].

Definition asked_follow : value :=
  VDict [("processed", VBool true); ("action", VStr "asked_follow");
         ("next", VStr "wait_for_dm_reply")].

Definition follow_prompt : string :=
  "Hey! Thanks for commenting. If you enjoy this, consider following us for more. Reply with 'I followed' to continue.".

(** The [convo] dict of step 4. *)
Definition comment_convo (ev : CommentEvent.t) : Conversation.t :=
  Conversation.mk (CommentEvent.accountId ev) (CommentEvent.igUserId ev)
    [ Message.mk "user" ("Commented: " ++ CommentEvent.text ev);
      Message.mk "agent" follow_prompt ].

(** Step 2, first half: the flow documents of the assignment, by [_id] when
    the assignment has a [flowId], else (or when none is found) the flows of
    the account. *)
Definition load_flow_docs (assignment : doc Assignment.t) (ev : CommentEvent.t)
  : M (list (doc Flow.t)) :=
  flow_docs <- (if PyStr.truthy (Assignment.flowId (body assignment))
                then get_documents Col.flow
                       [("_id", Assignment.flowId (body assignment))]
                else ret []) ;;
  match flow_docs with
  | [] => get_documents Col.flow [("accountId", CommentEvent.accountId ev)]
  | _ => ret flow_docs
  end.

(** [kws and not any(k in ev.text.lower() for k in kws)] *)
Definition keyword_mismatch (kws : list string) (text : string) : bool :=
  match kws with
  | [] => false
  | _ => negb (existsb (fun k => PyStr.contains k (PyStr.lower text)) kws)
  end.

(** Step 2, second half, and steps 3 to 5: what the handler does once
    [flow = flow_docs[0]] is chosen. *)
Definition on_comment_flow (flow : doc Flow.t) (ev : CommentEvent.t) : M value :=
  let kws := map PyStr.lower (Flow.keywords (body flow)) in
  if keyword_mismatch kws (CommentEvent.text ev)
  then ret (not_processed "Keyword not matched")
  else
    users <- get_documents Col.iguser
               [("igUserId", CommentEvent.igUserId ev);
                ("accountId", CommentEvent.accountId ev)] ;;
    match users with
    | _ :: _ => ret tt
    | [] =>
        create_document Col.iguser
          (IGUser.new (CommentEvent.accountId ev) (CommentEvent.igUserId ev)
                      (CommentEvent.username ev)) ;;;
        ret tt
    end ;;;
    create_document Col.conversation (comment_convo ev) ;;;
    create_document Col.event
      (Event.mk "comment_trigger" (CommentEvent.accountId ev)
                (CommentEvent.model_dump ev)) ;;;
    ret asked_follow.

Definition on_comment (ev : CommentEvent.t) : M value :=
  assigns <- get_documents Col.assignment
               [("igMediaId", CommentEvent.igMediaId ev);
                ("accountId", CommentEvent.accountId ev)] ;;
  match assigns with
  | [] => ret (not_processed "No flow assigned")
  | assignment :: _ =>
      flow_docs <- load_flow_docs assignment ev ;;
      match flow_docs with
      | [] => ret (not_processed "Flow not found")
      | flow :: _ => on_comment_flow flow ev
      end
  end.

(** ** [POST /webhook/dm] *)

Definition delivery_msg : string :=
  "Awesome! Here is your promised item: https://example.com/asset?token=demo".

Definition dm_hint : string :=
  "Reply 'I followed' to proceed or 'STOP' to opt out.".

(** [t in [...]] on a list of strings. *)
Definition str_in (t : string) (l : list string) : bool :=
  existsb (String.eqb t) l.

Definition dm_event (type : string) (ev : DMEvent.t) : Event.t :=
  Event.mk type (DMEvent.accountId ev) (DMEvent.model_dump ev).

Definition on_dm (ev : DMEvent.t) : M value :=
  let t := PyStr.lower (PyStr.strip (DMEvent.text ev)) in
  if str_in t ["i followed"; "followed"; "yes"] then
    create_document Col.event (dm_event "deliver_asset" ev) ;;;
    create_document Col.conversation
      (Conversation.mk (DMEvent.accountId ev) (DMEvent.igUserId ev)
                       [Message.mk "agent" delivery_msg]) ;;;
    ret (VDict [("delivered", VBool true)])
  else if str_in t ["stop"; "unsubscribe"] then
    create_document Col.event (dm_event "opt_out" ev) ;;;
    ret (VDict [("opted_out", VBool true)])
  else
    create_document Col.event (dm_event "dm_other" ev) ;;;
    ret (VDict [("ack", VBool true); ("hint", VStr dm_hint)]).

(** ** Sample data *)

Definition flow_love : Flow.t :=
  Flow.mk "acc1" "promo" None ["love"; "Discount"] [] [] [] "active" 1.

Definition store1 : Store :=
  insert Col.assignment (Assignment.mk "acc1" "media1" "0")
    (insert Col.flow flow_love empty_store).

Definition ev_love : CommentEvent.t :=
  CommentEvent.mk "acc1" "media1" "user7" (Some "ann") "I LOVE this!".

Definition ev_elsewhere : CommentEvent.t :=
  CommentEvent.mk "acc1" "media2" "user7" None "I love this!".

Definition store_no_flow : Store :=
  insert Col.assignment (Assignment.mk "acc1" "media1" "0") empty_store.

Definition ev_hello : CommentEvent.t :=
  CommentEvent.mk "acc1" "media1" "user7" None "hello".

Definition store_fallback : Store :=
  insert Col.assignment (Assignment.mk "acc1" "media1" "gone")
    (insert Col.flow flow_love empty_store).

Definition store_known : Store :=
  insert Col.iguser (IGUser.mk "acc1" "user7" (Some "old") (Some "follower")
                               ["vip"] [] None) store1.

Definition dm (text : string) : DMEvent.t := DMEvent.mk "acc1" "user7" text.

(** ** Notions used in the statements *)

(** [k] occurs in [s]: the specification's "is a substring of". *)
Definition Substring (k s : string) : Prop :=
  exists pre post : string, s = pre ++ k ++ post.

(** The assignments of a comment's media, and the contacts of its author. *)
Definition assigns_of (ev : CommentEvent.t) (st : Store) : list (doc Assignment.t) :=
  find Col.assignment
    [("igMediaId", CommentEvent.igMediaId ev);
     ("accountId", CommentEvent.accountId ev)] st.

Definition users_of (ev : CommentEvent.t) (st : Store) : list (doc IGUser.t) :=
  find Col.iguser
    [("igUserId", CommentEvent.igUserId ev);
     ("accountId", CommentEvent.accountId ev)] st.

Definition assigned_to (ev : CommentEvent.t) (d : doc Assignment.t) : Prop :=
  Assignment.igMediaId (body d) = CommentEvent.igMediaId ev
  /\ Assignment.accountId (body d) = CommentEvent.accountId ev.

Definition contact_of (ev : CommentEvent.t) (d : doc IGUser.t) : Prop :=
  IGUser.accountId (body d) = CommentEvent.accountId ev
  /\ IGUser.igUserId (body d) = CommentEvent.igUserId ev.

(** The flow documents step 2 loads for assignment [a]. *)
Definition flow_docs_of (a : doc Assignment.t) (ev : CommentEvent.t) (st : Store)
  : list (doc Flow.t) :=
  fst (load_flow_docs a ev st).

(** The store after steps 3 to 5. *)
Definition after_trigger (ev : CommentEvent.t) (st : Store) : Store :=
  let st1 :=
    match users_of ev st with
    | [] => insert Col.iguser
              (IGUser.new (CommentEvent.accountId ev) (CommentEvent.igUserId ev)
                          (CommentEvent.username ev)) st
    | _ :: _ => st
    end in
  insert Col.event
    (Event.mk "comment_trigger" (CommentEvent.accountId ev)
              (CommentEvent.model_dump ev))
    (insert Col.conversation (comment_convo ev) st1).

(** The comment reaches the keyword gate with [flow]. *)
Definition reaches_gate (ev : CommentEvent.t) (st : Store) (flow : doc Flow.t) : Prop :=
  exists a rest fs,
    assigns_of ev st = a :: rest /\ flow_docs_of a ev st = flow :: fs.

(** The automated response fires. *)
Definition fires (ev : CommentEvent.t) (st : Store) : Prop :=
  result (on_comment ev) st = asked_follow.

(** Some keyword of [K], lowercased, occurs in the lowercased text. *)
Definition keyword_occurs (K : list string) (text : string) : Prop :=
  exists k, In k K /\ Substring (PyStr.lower k) (PyStr.lower text).

(** The normalized text of a DM: trimmed, then lowercased. *)
Definition dm_text (ev : DMEvent.t) : string :=
  PyStr.lower (PyStr.strip (DMEvent.text ev)).

(** The conversation dict of the Deliver branch. *)
Definition delivery_convo (ev : DMEvent.t) : Conversation.t :=
  Conversation.mk (DMEvent.accountId ev) (DMEvent.igUserId ev)
                  [Message.mk "agent" delivery_msg].

(** The three branches of the DM handler, by what they write. *)
Inductive branch : Type := Deliver | OptOut | Other.

(** Running the DM handler on [ev] in [st] writes what branch [b] writes. *)
Definition takes (b : branch) (ev : DMEvent.t) (st : Store) : Prop :=
  let st' := store_after (on_dm ev) st in
  match b with
  | Deliver =>
      events st' = (events st ++ [mkdoc (fresh_id st) (dm_event "deliver_asset" ev)])%list
      /\ exists i, conversations st'
                   = (conversations st ++ [mkdoc i (delivery_convo ev)])%list
  | OptOut =>
      events st' = (events st ++ [mkdoc (fresh_id st) (dm_event "opt_out" ev)])%list
      /\ conversations st' = conversations st
  | Other =>
      events st' = (events st ++ [mkdoc (fresh_id st) (dm_event "dm_other" ev)])%list
      /\ conversations st' = conversations st
  end.

(** The branch read off the normalized text. *)
Definition classify (t : string) : branch :=
  if str_in t ["i followed"; "followed"; "yes"] then Deliver
  else if str_in t ["stop"; "unsubscribe"] then OptOut
  else Other.

(** Decimal numerals: the string of a list of digits, most significant
    first, and the number it denotes. *)
Definition digit_char (d : nat) : ascii := ascii_of_nat (48 + d).

Fixpoint numeral (ds : list nat) : string :=
  match ds with
  | [] => EmptyString
  | d :: r => String (digit_char d) (numeral r)
  end.

Fixpoint numeral_value (ds : list nat) : Z :=
  match ds with
  | [] => 0
  | d :: r => Z.of_nat d * 10 ^ Z.of_nat (List.length r) + numeral_value r
  end.

Fixpoint all_chars (p : ascii -> bool) (s : string) : bool :=
  match s with
  | EmptyString => true
  | String c r => p c && all_chars p r
  end.

(** The handshake in the specification's words: with mode "subscribe" and a
    token, the challenge read as an integer, 0 when it is absent or does
    not read as one; 403 otherwise. *)
Definition verify_webhook_spec (hub_mode hub_token hub_challenge : option string)
  : outcome Z :=
  if match hub_mode with Some m => String.eqb m "subscribe" | None => false end
     && PyStr.truthy_opt hub_token
  then Return match hub_challenge with
              | Some s => match PyStr.int s with Some n => n | None => 0 end
              | None => 0
              end
  else Raise (HTTPException 403 "Verification failed").

(** ** Flow management and analytics ([main.py]) *)

Module AssignRequest.
Record t : Type := mk
  { accountId : string; igMediaId : string; flowId : string }.

Definition model_dump (req : t) : Assignment.t :=
  Assignment.mk (accountId req) (igMediaId req) (flowId req).
End AssignRequest.

(** [POST /flows] *)
Definition create_flow (flow : Flow.t) : M value :=
  flow_id <- create_document Col.flow flow ;;
  ret (VDict [("id", VStr flow_id)]).

(** [{"accountId": accountId} if accountId else {}] *)
Definition account_filter (accountId : option string) : filter_dict :=
  match accountId with
  | Some (String c r) => [("accountId", String c r)]
  | _ => []
  end.

(** [GET /flows]: the identifiers of the listed documents are passed through
    [str], which leaves the strings of this store as they are. *)
Definition list_flows (accountId : option string) : M (list (doc Flow.t)) :=
  fl <- get_documents Col.flow (account_filter accountId) ;;
  ret (map (fun f => mkdoc (_id f) (body f)) fl).

(** [POST /assign] *)
Definition assign_flow (req : AssignRequest.t) : M value :=
  aid <- create_document Col.assignment (AssignRequest.model_dump req) ;;
  ret (VDict [("id", VStr aid)]).

(** The dict [GET /analytics/summary] returns. *)
Definition summary_of (comments assets opt_outs convs : nat) : value :=
  VDict [("comments_processed", VInt (Z.of_nat comments));
         ("assets_delivered", VInt (Z.of_nat assets));
         ("opt_outs", VInt (Z.of_nat opt_outs));
         ("conversations", VInt (Z.of_nat convs))].

(** [GET /analytics/summary]; [{**filt, "type": ty}] is [filt] with the key
    [type] added. *)
Definition analytics_summary (accountId : option string) : M value :=
  let filt := account_filter accountId in
  comments <- get_documents Col.event (filt ++ [("type", "comment_trigger")])%list ;;
  assets <- get_documents Col.event (filt ++ [("type", "deliver_asset")])%list ;;
  opt_outs <- get_documents Col.event (filt ++ [("type", "opt_out")])%list ;;
  convs <- get_documents Col.conversation filt ;;
  ret (summary_of (List.length comments) (List.length assets)
                  (List.length opt_outs) (List.length convs)).

(** The account filter [a] selects the documents of account [acc]. *)
Definition selects (a : option string) (acc : string) : Prop :=
  account_filter a = [] \/ a = Some acc.

(** [ev] with another text. *)
Definition with_text (ev : CommentEvent.t) (text : string) : CommentEvent.t :=
  CommentEvent.mk (CommentEvent.accountId ev) (CommentEvent.igMediaId ev)
                  (CommentEvent.igUserId ev) (CommentEvent.username ev) text.

Definition ev_again : CommentEvent.t :=
  CommentEvent.mk "acc1" "media1" "user7" (Some "ann2") "love it, discount?".

Definition store_blank : Store :=
  insert Col.assignment (Assignment.mk "acc1" "media1" "0")
    (insert Col.flow (Flow.mk "acc1" "any" None ["promo"; ""] [] [] [] "active" 1)
       empty_store).

(** The events of type [ty], and the conversations, that filter [a] counts. *)
Definition count_events (a : option string) (ty : string)
    (es : list (doc Event.t)) : nat :=
  List.length (filter (matches Col.event (account_filter a ++ [("type", ty)])%list) es).

Definition count_convos (a : option string) (cs : list (doc Conversation.t)) : nat :=
  List.length (filter (matches Col.conversation (account_filter a)) cs).

Definition requested_for (req : AssignRequest.t) (ev : CommentEvent.t) : Prop :=
  AssignRequest.igMediaId req = CommentEvent.igMediaId ev
  /\ AssignRequest.accountId req = CommentEvent.accountId ev.

(** The identifier the store issues for counter value [n]. *)
Definition id_of (n : nat) : string :=
  NilZero.string_of_uint (Nat.to_uint n).

Definition all_ids (st : Store) : list string :=
  (map _id (assignments st) ++ map _id (flows st) ++ map _id (igusers st)
   ++ map _id (conversations st) ++ map _id (events st))%list.

(** The identifiers of the stored documents are pairwise distinct and were
    all issued by the store, below its counter. *)
Definition ids_issued (st : Store) : Prop :=
  NoDup (all_ids st)
  /\ forall i, In i (all_ids st) -> exists n, (n < next_id st)%nat /\ i = id_of n.

(** * Properties *)

(** ** Sample runs *)

Example verify_12345 :
  verify_webhook (Some "subscribe") (Some "tok") (Some "12345") = Return 12345.
Proof. reflexivity. Qed.

Example verify_no_mode :
  verify_webhook None (Some "tok") (Some "12345")
  = Raise (HTTPException 403 "Verification failed").
Proof. reflexivity. Qed.

Example verify_abc :
  verify_webhook (Some "subscribe") (Some "tok") (Some "abc") = Raise ValueError.
Proof. reflexivity. Qed.

Example int_examples :
  PyStr.int " -1_000 " = Some (-1000) /\ PyStr.int "007" = Some 7
  /\ PyStr.int "1__0" = None /\ PyStr.int "- 1" = None /\ PyStr.int "" = None.
Proof. repeat split. Qed.

Example int_space_examples :
  PyStr.int (String "028" "42") = None
  /\ PyStr.int (String "160" "42") = Some 42
  /\ PyStr.strip (String "028" "42") = "42".
Proof. repeat split. Qed.

Example strip_lower_examples :
  PyStr.lower (PyStr.strip "  I Followed ") = "i followed"
  /\ PyStr.contains "love" (PyStr.lower "I LOVE this!") = true
  /\ PyStr.contains "" "" = true.
Proof. repeat split. Qed.

Example on_comment_love :
  result (on_comment ev_love) store1 = asked_follow
  /\ conversations (store_after (on_comment ev_love) store1)
     = [mkdoc "3" (comment_convo ev_love)]
  /\ map body (igusers (store_after (on_comment ev_love) store1))
     = [IGUser.new "acc1" "user7" (Some "ann")]
  /\ map (fun d => Event.type (body d))
         (events (store_after (on_comment ev_love) store1))
     = ["comment_trigger"].
Proof. repeat split. Qed.

Example on_dm_stop :
  on_dm (DMEvent.mk "acc1" "user7" " STOP ") empty_store
  = (VDict [("opted_out", VBool true)],
     insert Col.event
       (dm_event "opt_out" (DMEvent.mk "acc1" "user7" " STOP ")) empty_store).
Proof. reflexivity. Qed.

(** ** Strings *)

Lemma prefix_spec (k s : string) :
  prefix k s = true <-> exists post : string, s = k ++ post.
Proof.
  revert s; induction k as [|a k IH]; intros s.
  - split; [intros _; now exists s | now destruct s].
  - destruct s as [|b s]; simpl.
    + split; [discriminate | intros [post H]; discriminate H].
    + destruct (ascii_dec a b) as [->|Hab].
      * split.
        -- intros H. apply IH in H as [post ->]. now exists post.
        -- intros [post H]. injection H as ->. apply IH. now exists post.
      * split; [discriminate|].
        intros [post H]. injection H as Hb _. now elim Hab.
Qed.

Lemma contains_unfold (k s : string) :
  PyStr.contains k s
  = (prefix k s
     || match s with
        | EmptyString => false
        | String _ r => PyStr.contains k r
        end).
Proof. destruct s; reflexivity. Qed.

Lemma contains_spec (k s : string) :
  PyStr.contains k s = true <-> Substring k s.
Proof.
  split.
  - induction s as [|c s IH]; rewrite contains_unfold;
      intros H; apply orb_true_iff in H as [H|H].
    + apply prefix_spec in H as [post ->]. now exists "", post.
    + discriminate.
    + apply prefix_spec in H as [post ->]. now exists "", post.
    + destruct (IH H) as (pre & post & ->).
      now exists (String c pre), post.
  - intros (pre & post & ->).
    induction pre as [|c pre IH]; rewrite contains_unfold; apply orb_true_iff.
    + left. apply prefix_spec. now exists post.
    + right. exact IH.
Qed.

Lemma str_in_spec (t : string) (l : list string) :
  str_in t l = true <-> In t l.
Proof.
  unfold str_in. rewrite existsb_exists. split.
  - intros (x & Hx & E). apply String.eqb_eq in E. now subst.
  - intros H. exists t. split; [assumption | apply String.eqb_refl].
Qed.

(** ** The store operations *)

Lemma find_nil_iff {A : Type} (c : Col.t A) (f : filter_dict) (st : Store) :
  find c f st = [] <-> forall d, In d (coll c st) -> matches c f d = false.
Proof.
  unfold find. induction (coll c st) as [|d l IH]; simpl.
  - split; [intros _ d [] | reflexivity].
  - destruct (matches c f d) eqn:E.
    + split; [discriminate|]. intros H.
      specialize (H d (or_introl eq_refl)). congruence.
    + rewrite IH. split.
      * intros H x [<-|Hx]; auto.
      * intros H x Hx. apply H. now right.
Qed.

Lemma find_In {A : Type} (c : Col.t A) (f : filter_dict) (st : Store) (d : doc A) :
  In d (find c f st) <-> In d (coll c st) /\ matches c f d = true.
Proof. unfold find. apply filter_In. Qed.

Lemma get_documents_run {A : Type} (c : Col.t A) (f : filter_dict) (st : Store) :
  get_documents c f st = (find c f st, st).
Proof. reflexivity. Qed.

Lemma matches_assigned (ev : CommentEvent.t) (d : doc Assignment.t) :
  matches Col.assignment
    [("igMediaId", CommentEvent.igMediaId ev);
     ("accountId", CommentEvent.accountId ev)] d = true
  <-> assigned_to ev d.
Proof.
  unfold matches, assigned_to; simpl.
  rewrite andb_true_r, andb_true_iff, !String.eqb_eq. tauto.
Qed.

Lemma matches_contact (ev : CommentEvent.t) (d : doc IGUser.t) :
  matches Col.iguser
    [("igUserId", CommentEvent.igUserId ev);
     ("accountId", CommentEvent.accountId ev)] d = true
  <-> contact_of ev d.
Proof.
  unfold matches, contact_of; simpl.
  rewrite andb_true_r, andb_true_iff, !String.eqb_eq. tauto.
Qed.

Lemma assigns_of_nil (ev : CommentEvent.t) (st : Store) :
  assigns_of ev st = []
  <-> forall d, In d (assignments st) -> ~ assigned_to ev d.
Proof.
  unfold assigns_of. rewrite find_nil_iff.
  split; intros H d Hd; specialize (H d Hd).
  - rewrite <- matches_assigned. congruence.
  - rewrite <- matches_assigned in H. now destruct (matches _ _ d).
Qed.

Lemma users_of_nil (ev : CommentEvent.t) (st : Store) :
  users_of ev st = []
  <-> forall d, In d (igusers st) -> ~ contact_of ev d.
Proof.
  unfold users_of. rewrite find_nil_iff.
  split; intros H d Hd; specialize (H d Hd).
  - rewrite <- matches_contact. congruence.
  - rewrite <- matches_contact in H. now destruct (matches _ _ d).
Qed.

Lemma users_of_cons (ev : CommentEvent.t) (st : Store) :
  (exists d, In d (igusers st) /\ contact_of ev d)
  <-> exists u us, users_of ev st = u :: us.
Proof.
  split.
  - intros (d & Hd & Hc).
    destruct (users_of ev st) as [|u us] eqn:E; [|now exists u, us].
    exfalso. apply (proj1 (users_of_nil ev st) E d Hd Hc).
  - intros (u & us & E).
    assert (H : In u (users_of ev st)) by (rewrite E; now left).
    apply find_In in H as [Hin Hm]. exists u. split; [exact Hin|].
    now apply matches_contact.
Qed.

(** ** Running the comment handler *)

Lemma load_flow_docs_run (a : doc Assignment.t) (ev : CommentEvent.t) (st : Store) :
  load_flow_docs a ev st = (flow_docs_of a ev st, st).
Proof.
  unfold flow_docs_of, load_flow_docs, bind.
  destruct (PyStr.truthy (Assignment.flowId (body a))).
  - rewrite get_documents_run.
    now destruct (find Col.flow [("_id", Assignment.flowId (body a))] st).
  - reflexivity.
Qed.

Lemma flow_docs_of_eq (a : doc Assignment.t) (ev : CommentEvent.t) (st : Store) :
  flow_docs_of a ev st
  = match (if PyStr.truthy (Assignment.flowId (body a))
           then find Col.flow [("_id", Assignment.flowId (body a))] st
           else []) with
    | [] => find Col.flow [("accountId", CommentEvent.accountId ev)] st
    | f :: fs => f :: fs
    end.
Proof.
  unfold flow_docs_of, load_flow_docs, bind.
  destruct (PyStr.truthy (Assignment.flowId (body a))).
  - rewrite get_documents_run.
    now destruct (find Col.flow [("_id", Assignment.flowId (body a))] st).
  - reflexivity.
Qed.

Lemma on_comment_flow_run (flow : doc Flow.t) (ev : CommentEvent.t) (st : Store) :
  on_comment_flow flow ev st
  = if keyword_mismatch (map PyStr.lower (Flow.keywords (body flow)))
                        (CommentEvent.text ev)
    then (not_processed "Keyword not matched", st)
    else (asked_follow, after_trigger ev st).
Proof.
  unfold on_comment_flow.
  destruct (keyword_mismatch _ _); [reflexivity|].
  unfold bind at 1. rewrite get_documents_run.
  unfold after_trigger, users_of.
  now destruct (find Col.iguser _ st).
Qed.

Lemma on_comment_run (ev : CommentEvent.t) (st : Store) :
  on_comment ev st
  = match assigns_of ev st with
    | [] => (not_processed "No flow assigned", st)
    | a :: _ =>
        match flow_docs_of a ev st with
        | [] => (not_processed "Flow not found", st)
        | f :: _ => on_comment_flow f ev st
        end
    end.
Proof.
  unfold on_comment, bind at 1. rewrite get_documents_run.
  fold (assigns_of ev st).
  destruct (assigns_of ev st) as [|a rest]; [reflexivity|].
  unfold bind. rewrite load_flow_docs_run.
  now destruct (flow_docs_of a ev st).
Qed.

Lemma on_comment_at_gate (ev : CommentEvent.t) (st : Store) (flow : doc Flow.t) :
  reaches_gate ev st flow -> on_comment ev st = on_comment_flow flow ev st.
Proof.
  intros (a & rest & fs & Ha & Hf).
  now rewrite on_comment_run, Ha, Hf.
Qed.

Lemma existsb_keyword (K : list string) (text : string) :
  existsb (fun k => PyStr.contains k (PyStr.lower text)) (map PyStr.lower K) = true
  <-> keyword_occurs K text.
Proof.
  rewrite existsb_exists. split.
  - intros (k' & Hin & Hc). apply in_map_iff in Hin as (k & <- & Hk).
    exists k. split; [assumption | now apply contains_spec].
  - intros (k & Hk & Hs). exists (PyStr.lower k).
    split; [now apply in_map | now apply contains_spec].
Qed.

Lemma keyword_mismatch_false (K : list string) (text : string) :
  keyword_mismatch (map PyStr.lower K) text = false
  <-> K = [] \/ keyword_occurs K text.
Proof.
  destruct K as [|k0 K].
  - simpl. split; [now left | reflexivity].
  - change (keyword_mismatch (map PyStr.lower (k0 :: K)) text)
      with (negb (existsb (fun k => PyStr.contains k (PyStr.lower text))
                          (map PyStr.lower (k0 :: K)))).
    rewrite negb_false_iff, existsb_keyword.
    split; [now right | intros [H|H]; [discriminate | exact H]].
Qed.

Lemma fires_at_gate (ev : CommentEvent.t) (st : Store) (flow : doc Flow.t) :
  reaches_gate ev st flow ->
  (fires ev st
   <-> keyword_mismatch (map PyStr.lower (Flow.keywords (body flow)))
                        (CommentEvent.text ev) = false).
Proof.
  intros Hg. unfold fires, result.
  rewrite (on_comment_at_gate _ _ _ Hg), on_comment_flow_run.
  destruct (keyword_mismatch _ _); simpl; split; try reflexivity; discriminate.
Qed.

Lemma fires_inv (ev : CommentEvent.t) (st : Store) :
  fires ev st ->
  exists flow, reaches_gate ev st flow
    /\ on_comment ev st = (asked_follow, after_trigger ev st).
Proof.
  unfold fires, result. rewrite on_comment_run.
  destruct (assigns_of ev st) as [|a rest] eqn:Ha; [discriminate|].
  destruct (flow_docs_of a ev st) as [|f fs] eqn:Hf; [discriminate|].
  rewrite on_comment_flow_run.
  destruct (keyword_mismatch _ _); [discriminate|].
  intros _. exists f. split; [|reflexivity].
  now exists a, rest, fs.
Qed.

(** C1.  At the keyword gate: with a non-empty keyword list the response
    fires iff some lowercased keyword is a substring of the lowercased
    comment text, and the handler answers "Keyword not matched" when none
    is; with an empty list it always fires. *)
Theorem keyword_gate (ev : CommentEvent.t) (st : Store) (flow : doc Flow.t) :
  reaches_gate ev st flow ->
  let K := Flow.keywords (body flow) in
  let text := CommentEvent.text ev in
  (K <> [] ->
     (fires ev st <-> keyword_occurs K text)
     /\ (~ keyword_occurs K text ->
         result (on_comment ev) st = not_processed "Keyword not matched"))
  /\ (K = [] -> fires ev st).
Proof.
  intros Hg K text. split.
  - intros HK. split.
    + rewrite (fires_at_gate _ _ _ Hg), keyword_mismatch_false.
      fold K text. tauto.
    + intros Hno. unfold result.
      rewrite (on_comment_at_gate _ _ _ Hg), on_comment_flow_run.
      destruct (keyword_mismatch _ _) eqn:E; [reflexivity|].
      apply keyword_mismatch_false in E. fold K text in E. tauto.
  - intros HK. apply (fires_at_gate _ _ _ Hg), keyword_mismatch_false.
    now left.
Qed.

Lemma store1_reaches_gate : reaches_gate ev_love store1 (mkdoc "0" flow_love).
Proof. now exists (mkdoc "1" (Assignment.mk "acc1" "media1" "0")), [], []. Qed.

Lemma keyword_gate_witness :
  reaches_gate ev_love store1 (mkdoc "0" flow_love) /\ fires ev_love store1.
Proof.
  split; [exact store1_reaches_gate|].
  destruct (keyword_gate ev_love store1 _ store1_reaches_gate) as [H _].
  apply H; [discriminate|].
  exists "love". split; [now left|].
  apply contains_spec. reflexivity.
Defined.

(** C5.  A comment whose (igMediaId, accountId) pair has no Assignment is
    answered "No flow assigned" and leaves the store as it was: no Contact,
    Conversation or Event document is created. *)
Theorem no_assignment_no_writes (ev : CommentEvent.t) (st : Store) :
  (forall d, In d (assignments st) -> ~ assigned_to ev d) ->
  result (on_comment ev) st = not_processed "No flow assigned"
  /\ store_after (on_comment ev) st = st.
Proof.
  intros H. apply assigns_of_nil in H.
  unfold result, store_after. now rewrite on_comment_run, H.
Qed.

Lemma no_assignment_no_writes_witness :
  result (on_comment ev_elsewhere) store1 = not_processed "No flow assigned"
  /\ store_after (on_comment ev_elsewhere) store1 = store1.
Proof.
  apply (no_assignment_no_writes ev_elsewhere store1).
  intros d [<-|[]] [H _]. discriminate H.
Defined.

(** C10.  A comment answered "Flow not found" or "Keyword not matched"
    leaves the store as it was. *)
Theorem not_processed_no_writes (ev : CommentEvent.t) (st : Store) :
  result (on_comment ev) st = not_processed "Flow not found"
  \/ result (on_comment ev) st = not_processed "Keyword not matched" ->
  store_after (on_comment ev) st = st.
Proof.
  unfold result, store_after. rewrite on_comment_run.
  destruct (assigns_of ev st) as [|a rest]; [reflexivity|].
  destruct (flow_docs_of a ev st) as [|f fs]; [reflexivity|].
  rewrite on_comment_flow_run.
  destruct (keyword_mismatch _ _); [reflexivity|].
  simpl. intros [H|H]; discriminate H.
Qed.

Lemma not_processed_no_writes_witness :
  store_after (on_comment ev_love) store_no_flow = store_no_flow
  /\ store_after (on_comment ev_hello) store1 = store1.
Proof.
  split.
  - apply not_processed_no_writes. left. reflexivity.
  - apply not_processed_no_writes. right. reflexivity.
Defined.

(** C6.  With a matching Assignment, the Flow is looked up by the
    assignment's flowId; when that finds nothing the first Flow of the
    account is taken; when there is none either the answer is
    "Flow not found". *)
Theorem flow_lookup (ev : CommentEvent.t) (st : Store)
    (a : doc Assignment.t) (rest : list (doc Assignment.t)) :
  assigns_of ev st = a :: rest ->
  let by_id := find Col.flow [("_id", Assignment.flowId (body a))] st in
  let by_account :=
    find Col.flow [("accountId", CommentEvent.accountId ev)] st in
  (forall f fs, Assignment.flowId (body a) <> "" -> by_id = f :: fs ->
     on_comment ev st = on_comment_flow f ev st)
  /\ (forall f fs, by_id = [] -> by_account = f :: fs ->
        on_comment ev st = on_comment_flow f ev st)
  /\ (by_id = [] -> by_account = [] ->
        result (on_comment ev) st = not_processed "Flow not found").
Proof.
  intros Ha by_id by_account.
  unfold result. rewrite on_comment_run, Ha, flow_docs_of_eq.
  fold by_id by_account.
  split; [|split].
  - intros f fs Hne E. rewrite E.
    destruct (Assignment.flowId (body a)); [now elim Hne | reflexivity].
  - intros f fs E1 E2. rewrite E1, E2. now destruct (PyStr.truthy _).
  - intros E1 E2. rewrite E1, E2. now destruct (PyStr.truthy _).
Qed.

(** An assignment without a flowId goes straight to the flows of the
    account. *)
Lemma flow_lookup_no_flowId (ev : CommentEvent.t) (st : Store)
    (a : doc Assignment.t) :
  Assignment.flowId (body a) = "" ->
  flow_docs_of a ev st
  = find Col.flow [("accountId", CommentEvent.accountId ev)] st.
Proof. intros E. now rewrite flow_docs_of_eq, E. Qed.

Lemma flow_lookup_witness :
  on_comment ev_love store1 = on_comment_flow (mkdoc "0" flow_love) ev_love store1
  /\ on_comment ev_love store_fallback
     = on_comment_flow (mkdoc "0" flow_love) ev_love store_fallback
  /\ result (on_comment ev_love) store_no_flow = not_processed "Flow not found".
Proof.
  split; [|split].
  - refine (proj1 (flow_lookup ev_love store1 _ [] eq_refl) _ [] _ eq_refl).
    discriminate.
  - exact (proj1 (proj2 (flow_lookup ev_love store_fallback _ [] eq_refl))
             _ [] eq_refl eq_refl).
  - exact (proj2 (proj2 (flow_lookup ev_love store_no_flow _ [] eq_refl))
             eq_refl eq_refl).
Defined.

(** ** What a firing comment writes *)

Lemma after_trigger_igusers (ev : CommentEvent.t) (st : Store) :
  igusers (after_trigger ev st)
  = match users_of ev st with
    | [] => (igusers st
             ++ [mkdoc (fresh_id st)
                   (IGUser.new (CommentEvent.accountId ev)
                      (CommentEvent.igUserId ev) (CommentEvent.username ev))])%list
    | _ :: _ => igusers st
    end.
Proof. unfold after_trigger. now destruct (users_of ev st). Qed.

Lemma after_trigger_conversations (ev : CommentEvent.t) (st : Store) :
  exists i, conversations (after_trigger ev st)
            = (conversations st ++ [mkdoc i (comment_convo ev)])%list.
Proof.
  unfold after_trigger. destruct (users_of ev st); eexists; reflexivity.
Qed.

Lemma after_trigger_frame (ev : CommentEvent.t) (st : Store) :
  assignments (after_trigger ev st) = assignments st
  /\ flows (after_trigger ev st) = flows st.
Proof. unfold after_trigger. now destruct (users_of ev st). Qed.

(** The answer of the comment handler depends on the assignments and the
    flows of the store only. *)
Lemma on_comment_result_frame (ev : CommentEvent.t) (st1 st2 : Store) :
  assignments st1 = assignments st2 -> flows st1 = flows st2 ->
  result (on_comment ev) st1 = result (on_comment ev) st2.
Proof.
  intros Ea Ef. unfold result. rewrite !on_comment_run.
  assert (E1 : assigns_of ev st1 = assigns_of ev st2)
    by (unfold assigns_of, find; simpl; now rewrite Ea).
  assert (E2 : forall a, flow_docs_of a ev st1 = flow_docs_of a ev st2)
    by (intros a; rewrite !flow_docs_of_eq; unfold find; simpl; now rewrite Ef).
  rewrite E1. destruct (assigns_of ev st2) as [|a rest]; [reflexivity|].
  rewrite E2. destruct (flow_docs_of a ev st2) as [|f fs]; [reflexivity|].
  rewrite !on_comment_flow_run. now destruct (keyword_mismatch _ _).
Qed.

Lemma fires_again (ev ev' : CommentEvent.t) (st : Store) :
  fires ev st -> fires ev' st -> fires ev' (store_after (on_comment ev) st).
Proof.
  intros H H'. destruct (fires_inv _ _ H) as (_ & _ & E).
  unfold fires, store_after. rewrite E. cbn [snd].
  destruct (after_trigger_frame ev st) as [Ea Ef].
  now rewrite (on_comment_result_frame ev' _ st Ea Ef).
Qed.

(** C7.  A firing comment upserts the Contact of (accountId, igUserId):
    when the store has none, one is created with the event's username (the
    other fields at their defaults); when it has one, the contacts are left
    as they were. *)
Theorem contact_upsert (ev : CommentEvent.t) (st : Store) :
  fires ev st ->
  ((forall d, In d (igusers st) -> ~ contact_of ev d) ->
     igusers (store_after (on_comment ev) st)
     = (igusers st
        ++ [mkdoc (fresh_id st)
              (IGUser.mk (CommentEvent.accountId ev) (CommentEvent.igUserId ev)
                         (CommentEvent.username ev) None [] [] None)])%list)
  /\ ((exists d, In d (igusers st) /\ contact_of ev d) ->
        igusers (store_after (on_comment ev) st) = igusers st).
Proof.
  intros H. destruct (fires_inv _ _ H) as (_ & _ & E).
  unfold store_after. rewrite E. cbn [snd]. rewrite after_trigger_igusers.
  split.
  - intros Hno. apply users_of_nil in Hno. now rewrite Hno.
  - intros Hex. apply users_of_cons in Hex as (u & us & ->). reflexivity.
Qed.

Lemma fires_love_store1 : fires ev_love store1.
Proof. reflexivity. Qed.

Lemma contact_upsert_witness :
  map body (igusers (store_after (on_comment ev_love) store1))
  = [IGUser.mk "acc1" "user7" (Some "ann") None [] [] None]
  /\ igusers (store_after (on_comment ev_love) store_known) = igusers store_known.
Proof.
  split.
  - rewrite (proj1 (contact_upsert ev_love store1 fires_love_store1)).
    + reflexivity.
    + intros d [].
  - apply (proj2 (contact_upsert ev_love store_known eq_refl)).
    eexists. split; [left; reflexivity | split; reflexivity].
Defined.

(** C4.  A firing comment appends one Conversation document with exactly
    two messages: a user message echoing the raw comment text (after the
    label "Commented: "), then the fixed agent prompt that asks to reply
    'I followed' to continue.  The earlier Conversation documents are kept
    as they are, and a second firing comment gets a document of its own. *)
Theorem comment_conversation (ev : CommentEvent.t) (st : Store) :
  fires ev st ->
  (exists i,
     conversations (store_after (on_comment ev) st)
     = (conversations st
        ++ [mkdoc i
              (Conversation.mk (CommentEvent.accountId ev)
                 (CommentEvent.igUserId ev)
                 [ Message.mk "user"
                     ("Commented: " ++ CommentEvent.text ev)%string;
                   Message.mk "agent" follow_prompt ])])%list)
  /\ Substring "Reply with 'I followed' to continue" follow_prompt
  /\ (forall ev', fires ev' st ->
        exists i j,
          conversations
            (store_after (on_comment ev') (store_after (on_comment ev) st))
          = (conversations st
             ++ [mkdoc i (comment_convo ev); mkdoc j (comment_convo ev')])%list).
Proof.
  intros H. destruct (fires_inv _ _ H) as (_ & _ & E).
  destruct (after_trigger_conversations ev st) as [i Hi].
  split; [|split].
  - exists i. unfold store_after. rewrite E. exact Hi.
  - apply contains_spec. reflexivity.
  - intros ev' H'.
    pose proof (fires_again ev ev' st H H') as H2.
    destruct (fires_inv _ _ H2) as (_ & _ & E2).
    destruct (after_trigger_conversations ev'
                (store_after (on_comment ev) st)) as [j Hj].
    exists i, j. unfold store_after at 1. rewrite E2. cbn [snd].
    rewrite Hj. unfold store_after. rewrite E. cbn [snd]. rewrite Hi.
    now rewrite <- app_assoc.
Qed.

Lemma comment_conversation_witness :
  exists i,
    conversations (store_after (on_comment ev_love) store1)
    = [mkdoc i
         (Conversation.mk "acc1" "user7"
            [ Message.mk "user" "Commented: I LOVE this!";
              Message.mk "agent" follow_prompt ])].
Proof.
  exact (proj1 (comment_conversation ev_love store1 fires_love_store1)).
Defined.

(** ** The DM handler *)

Lemma on_dm_run (ev : DMEvent.t) (st : Store) :
  on_dm ev st
  = if str_in (dm_text ev) ["i followed"; "followed"; "yes"] then
      (VDict [("delivered", VBool true)],
       insert Col.conversation (delivery_convo ev)
         (insert Col.event (dm_event "deliver_asset" ev) st))
    else if str_in (dm_text ev) ["stop"; "unsubscribe"] then
      (VDict [("opted_out", VBool true)],
       insert Col.event (dm_event "opt_out" ev) st)
    else
      (VDict [("ack", VBool true); ("hint", VStr dm_hint)],
       insert Col.event (dm_event "dm_other" ev) st).
Proof.
  unfold on_dm. fold (dm_text ev).
  destruct (str_in (dm_text ev) ["i followed"; "followed"; "yes"]);
    [reflexivity|].
  now destruct (str_in (dm_text ev) ["stop"; "unsubscribe"]).
Qed.

Lemma opt_out_not_deliver (t : string) :
  In t ["stop"; "unsubscribe"] ->
  str_in t ["i followed"; "followed"; "yes"] = false
  /\ str_in t ["stop"; "unsubscribe"] = true.
Proof. intros [<-|[<-|[]]]; split; reflexivity. Qed.

Lemma other_not_recognized (t : string) :
  ~ In t ["i followed"; "followed"; "yes"; "stop"; "unsubscribe"] ->
  str_in t ["i followed"; "followed"; "yes"] = false
  /\ str_in t ["stop"; "unsubscribe"] = false.
Proof.
  intros H. split; apply not_true_is_false; rewrite str_in_spec;
    intros Hin; apply H; simpl in *; tauto.
Qed.

(** C2.  With [t] the trimmed, lowercased text of a DM: for "i followed",
    "followed" or "yes" the handler records a deliver_asset Event and a
    Conversation with the single agent message of the fixed delivery text,
    and answers delivered; for "stop" or "unsubscribe" it records an opt_out
    Event and answers opted_out; for any other text it records a dm_other
    Event and answers ack with the fixed hint. *)
Theorem on_dm_branches (ev : DMEvent.t) (st : Store) :
  let t := PyStr.lower (PyStr.strip (DMEvent.text ev)) in
  let recorded (type : string) :=
    events (store_after (on_dm ev) st)
    = (events st
       ++ [mkdoc (fresh_id st)
             (Event.mk type (DMEvent.accountId ev) (DMEvent.model_dump ev))])%list in
  (In t ["i followed"; "followed"; "yes"] ->
     result (on_dm ev) st = VDict [("delivered", VBool true)]
     /\ recorded "deliver_asset"
     /\ exists i,
          conversations (store_after (on_dm ev) st)
          = (conversations st
             ++ [mkdoc i
                   (Conversation.mk (DMEvent.accountId ev) (DMEvent.igUserId ev)
                      [Message.mk "agent"
                         "Awesome! Here is your promised item: https://example.com/asset?token=demo"])])%list)
  /\ (In t ["stop"; "unsubscribe"] ->
        result (on_dm ev) st = VDict [("opted_out", VBool true)]
        /\ recorded "opt_out")
  /\ (~ In t ["i followed"; "followed"; "yes"; "stop"; "unsubscribe"] ->
        result (on_dm ev) st
        = VDict [("ack", VBool true);
                 ("hint", VStr "Reply 'I followed' to proceed or 'STOP' to opt out.")]
        /\ recorded "dm_other").
Proof.
  intros t recorded. unfold recorded, result, store_after.
  rewrite on_dm_run. change (dm_text ev) with t. split; [|split].
  - intros H. apply str_in_spec in H. rewrite H.
    split; [reflexivity | split; [reflexivity | eexists; reflexivity]].
  - intros H. destruct (opt_out_not_deliver t H) as [-> ->].
    split; reflexivity.
  - intros H. destruct (other_not_recognized t H) as [-> ->].
    split; reflexivity.
Qed.

Lemma on_dm_branches_witness :
  result (on_dm (dm " I Followed ")) store1 = VDict [("delivered", VBool true)]
  /\ result (on_dm (dm "Unsubscribe")) store1 = VDict [("opted_out", VBool true)]
  /\ result (on_dm (dm "hello")) store1
     = VDict [("ack", VBool true);
              ("hint", VStr "Reply 'I followed' to proceed or 'STOP' to opt out.")].
Proof.
  split; [|split].
  - apply (proj1 (on_dm_branches (dm " I Followed ") store1)).
    left. reflexivity.
  - apply (proj1 (proj2 (on_dm_branches (dm "Unsubscribe") store1))).
    right. left. reflexivity.
  - apply (proj2 (proj2 (on_dm_branches (dm "hello") store1))).
    intros H. simpl in H. repeat destruct H as [H|H]; discriminate || exact H.
Defined.

(** C8.  A DM whose trimmed, lowercased text is "stop" or "unsubscribe" is
    answered opted_out and adds exactly one document to the store, an Event
    of type opt_out; the conversations, like every other collection, are
    left as they were. *)
Theorem opt_out_writes (ev : DMEvent.t) (st : Store) :
  In (PyStr.lower (PyStr.strip (DMEvent.text ev))) ["stop"; "unsubscribe"] ->
  result (on_dm ev) st = VDict [("opted_out", VBool true)]
  /\ store_after (on_dm ev) st
     = mkStore (assignments st) (flows st) (igusers st) (conversations st)
         (events st
          ++ [mkdoc (fresh_id st)
                (Event.mk "opt_out" (DMEvent.accountId ev)
                          (DMEvent.model_dump ev))])
         (S (next_id st)).
Proof.
  intros H. unfold result, store_after. rewrite on_dm_run.
  destruct (opt_out_not_deliver (dm_text ev) H) as [-> ->].
  split; reflexivity.
Qed.

Lemma opt_out_writes_witness :
  result (on_dm (dm "STOP")) store1 = VDict [("opted_out", VBool true)]
  /\ conversations (store_after (on_dm (dm "STOP")) store1) = conversations store1
  /\ map (fun d => Event.type (body d))
         (events (store_after (on_dm (dm "STOP")) store1)) = ["opt_out"].
Proof.
  destruct (opt_out_writes (dm "STOP") store1) as [R S].
  - left. reflexivity.
  - split; [exact R|]. rewrite S. split; reflexivity.
Defined.

Lemma on_dm_takes (ev : DMEvent.t) (st : Store) :
  takes (classify (dm_text ev)) ev st.
Proof.
  unfold takes, classify, store_after. rewrite on_dm_run.
  destruct (str_in (dm_text ev) ["i followed"; "followed"; "yes"]).
  - split; [reflexivity | eexists; reflexivity].
  - destruct (str_in (dm_text ev) ["stop"; "unsubscribe"]); split; reflexivity.
Qed.

Lemma takes_unique (b b' : branch) (ev : DMEvent.t) (st : Store) :
  takes b ev st -> takes b' ev st -> b = b'.
Proof.
  unfold takes. destruct b, b'; intros [E _] [E' _]; try reflexivity;
    rewrite E in E'; apply app_inv_head in E'; discriminate E'.
Qed.

Lemma on_dm_result (ev : DMEvent.t) (st : Store) :
  result (on_dm ev) st
  = match classify (dm_text ev) with
    | Deliver => VDict [("delivered", VBool true)]
    | OptOut => VDict [("opted_out", VBool true)]
    | Other => VDict [("ack", VBool true); ("hint", VStr dm_hint)]
    end.
Proof.
  unfold result, classify. rewrite on_dm_run.
  destruct (str_in (dm_text ev) ["i followed"; "followed"; "yes"]);
    [reflexivity|].
  now destruct (str_in (dm_text ev) ["stop"; "unsubscribe"]).
Qed.

(** C9.  Two DMs with the same normalized text (in particular with the same
    text) take the same branch and get the same answer, whatever their
    accountId and igUserId and whatever the stores hold. *)
Theorem dm_classification_deterministic
    (ev1 ev2 : DMEvent.t) (st1 st2 : Store) :
  PyStr.lower (PyStr.strip (DMEvent.text ev1))
  = PyStr.lower (PyStr.strip (DMEvent.text ev2)) ->
  result (on_dm ev1) st1 = result (on_dm ev2) st2
  /\ exists b, takes b ev1 st1 /\ takes b ev2 st2.
Proof.
  intros E. fold (dm_text ev1) (dm_text ev2) in E. split.
  - now rewrite !on_dm_result, E.
  - exists (classify (dm_text ev1)). split; [apply on_dm_takes|].
    rewrite E. apply on_dm_takes.
Qed.

Lemma dm_classification_deterministic_witness :
  result (on_dm (DMEvent.mk "acc1" "user7" "YES")) empty_store
  = result (on_dm (DMEvent.mk "acc2" "user9" "yes  ")) store1.
Proof.
  apply (dm_classification_deterministic
           (DMEvent.mk "acc1" "user7" "YES") (DMEvent.mk "acc2" "user9" "yes  ")
           empty_store store1).
  reflexivity.
Defined.

(** ** The verification handshake *)

Lemma digit_char_facts (d : nat) :
  (d < 10)%nat ->
  PyStr.is_digit (digit_char d) = true
  /\ PyStr.digit_val (digit_char d) = Z.of_nat d
  /\ PyStr.is_space (digit_char d) = false.
Proof.
  intros H. do 10 (destruct d as [|d]; [now vm_compute|]). lia.
Qed.

Lemma digit_char_not_int_space (d : nat) :
  (d < 10)%nat -> PyStr.is_int_space (digit_char d) = false.
Proof.
  intros H. do 10 (destruct d as [|d]; [now vm_compute|]). lia.
Qed.

Lemma numeral_no_space (ds : list nat) :
  Forall (fun d => (d < 10)%nat) ds ->
  all_chars (fun c => negb (PyStr.is_int_space c)) (numeral ds) = true.
Proof.
  induction 1 as [|d r Hd _ IH]; [reflexivity|]. cbn [numeral all_chars].
  now rewrite (digit_char_not_int_space d Hd).
Qed.

Lemma rstrip_by_none (p : ascii -> bool) (s : string) :
  all_chars (fun c => negb (p c)) s = true -> PyStr.rstrip_by p s = s.
Proof.
  induction s as [|c r IH]; [reflexivity|]. cbn [all_chars PyStr.rstrip_by].
  intros H. apply andb_true_iff in H as [Hc Hr]. rewrite (IH Hr).
  destruct r; [|reflexivity].
  now destruct (p c).
Qed.

Lemma int_strip_none (s : string) :
  all_chars (fun c => negb (PyStr.is_int_space c)) s = true ->
  PyStr.int_strip s = s.
Proof.
  intros H. unfold PyStr.int_strip.
  assert (E : PyStr.lstrip_by PyStr.is_int_space s = s).
  { destruct s as [|c r]; [reflexivity|]. cbn [all_chars PyStr.lstrip_by] in *.
    now destruct (PyStr.is_int_space c). }
  rewrite E. now apply rstrip_by_none.
Qed.

Lemma int_tail_numeral (ds : list nat) (acc : Z) (n : nat) :
  Forall (fun d => (d < 10)%nat) ds ->
  PyStr.int_tail (numeral ds) acc n
  = Some (acc * 10 ^ Z.of_nat (List.length ds) + numeral_value ds, (n + List.length ds)%nat).
Proof.
  intros H. revert acc n.
  induction H as [|d r Hd _ IH]; intros acc n.
  - cbn [numeral PyStr.int_tail List.length numeral_value].
    do 2 f_equal; [change (Z.of_nat 0) with 0; lia | auto with arith].
  - cbn [numeral PyStr.int_tail].
    destruct (digit_char_facts d Hd) as (-> & -> & _).
    rewrite IH. cbn [List.length numeral_value].
    rewrite Nat2Z.inj_succ, Z.pow_succ_r by lia.
    do 2 f_equal; [ring | lia].
Qed.

Lemma int_unsigned_numeral (ds : list nat) :
  ds <> [] -> Forall (fun d => (d < 10)%nat) ds ->
  (List.length ds <= PyStr.int_max_str_digits)%nat ->
  PyStr.int_unsigned (numeral ds) = Some (numeral_value ds).
Proof.
  intros Hne H Hlen. destruct ds as [|d r]; [now elim Hne|].
  inversion H as [|? ? Hd Hr]; subst.
  cbn [numeral PyStr.int_unsigned].
  destruct (digit_char_facts d Hd) as (-> & -> & _).
  rewrite (int_tail_numeral r _ _ Hr).
  cbn [List.length] in Hlen. apply Nat.leb_le in Hlen.
  change (1 + List.length r)%nat with (S (List.length r)). rewrite Hlen.
  reflexivity.
Qed.

Lemma int_unsigned_start (s : string) :
  PyStr.int_strip s = s ->
  (exists c r, s = String c r /\ PyStr.is_digit c = true) ->
  PyStr.int s = PyStr.int_unsigned s.
Proof.
  intros E (c & r & -> & Hc). unfold PyStr.int. rewrite E.
  destruct c as [[] [] [] [] [] [] [] []]; try discriminate Hc; reflexivity.
Qed.

(** [int] reads a decimal numeral of at most 4300 digits as the number it
    denotes, and the numeral after a minus sign as its opposite. *)
Lemma int_numeral (ds : list nat) :
  ds <> [] -> Forall (fun d => (d < 10)%nat) ds ->
  (List.length ds <= 4300)%nat ->
  PyStr.int (numeral ds) = Some (numeral_value ds)
  /\ PyStr.int (String "-" (numeral ds)) = Some (- numeral_value ds).
Proof.
  intros Hne H Hlen. split.
  - rewrite int_unsigned_start.
    + now apply int_unsigned_numeral.
    + now apply int_strip_none, numeral_no_space.
    + destruct ds as [|d r]; [now elim Hne|].
      inversion H as [|? ? Hd Hr]; subst.
      exists (digit_char d), (numeral r). split; [reflexivity|].
      apply (digit_char_facts d Hd).
  - unfold PyStr.int. rewrite int_strip_none.
    + now rewrite int_unsigned_numeral.
    + cbn [all_chars]. apply andb_true_iff.
      split; [reflexivity | now apply numeral_no_space].
Qed.

(** C3, as stated, fails: a challenge that does not read as an integer is
    not answered with 0, the conversion raises ValueError. *)
Lemma verify_webhook_unparseable :
  PyStr.int "abc" = None
  /\ verify_webhook (Some "subscribe") (Some "tok") (Some "abc") = Raise ValueError
  /\ verify_webhook (Some "subscribe") (Some "tok") (Some "abc")
     <> verify_webhook_spec (Some "subscribe") (Some "tok") (Some "abc").
Proof. split; [reflexivity | split; [reflexivity | discriminate]]. Qed.

(** [int] refuses a decimal numeral of more than 4300 digits. *)
Lemma int_numeral_long (ds : list nat) :
  Forall (fun d => (d < 10)%nat) ds ->
  (4300 < List.length ds)%nat ->
  PyStr.int (numeral ds) = None.
Proof.
  intros H Hlen. destruct ds as [|d r]; [cbn in Hlen; lia|].
  rewrite int_unsigned_start.
  - inversion H as [|? ? Hd Hr]; subst.
    cbn [numeral PyStr.int_unsigned].
    destruct (digit_char_facts d Hd) as (-> & -> & _).
    rewrite (int_tail_numeral r _ _ Hr).
    cbn [List.length] in Hlen.
    change (1 + List.length r)%nat with (S (List.length r)).
    assert (E : (S (List.length r) <=? PyStr.int_max_str_digits)%nat = false)
      by (apply Nat.leb_gt; exact Hlen).
    now rewrite E.
  - now apply int_strip_none, numeral_no_space.
  - inversion H as [|? ? Hd Hr]; subst.
    exists (digit_char d), (numeral r). split; [reflexivity|].
    apply (digit_char_facts d Hd).
Qed.

Lemma verify_webhook_granted (c : ascii) (t : string) (ch : option string) :
  verify_webhook (Some "subscribe") (Some (String c t)) ch = int_or_0 ch.
Proof. reflexivity. Qed.

(** C3, amended.  With mode "subscribe" and a non-empty token the handler
    returns 0 for an absent or empty challenge and the integer the challenge
    reads as otherwise (a decimal numeral of at most 4300 digits reads as
    the number it denotes); a longer numeral, like any non-empty challenge
    that reads as no integer, raises ValueError instead.  In every other
    case the handler fails with 403. *)
Theorem verify_webhook_handshake (hub_mode hub_token hub_challenge : option string) :
  let granted :=
    hub_mode = Some "subscribe" /\ exists t, hub_token = Some t /\ t <> "" in
  let answer := verify_webhook hub_mode hub_token hub_challenge in
  (granted ->
     (hub_challenge = None \/ hub_challenge = Some "" -> answer = Return 0)
     /\ (forall s n, hub_challenge = Some s -> PyStr.int s = Some n ->
           answer = Return n)
     /\ (forall ds, ds <> [] -> Forall (fun d => (d < 10)%nat) ds ->
           (List.length ds <= 4300)%nat -> hub_challenge = Some (numeral ds) ->
           answer = Return (numeral_value ds))
     /\ (forall ds, Forall (fun d => (d < 10)%nat) ds ->
           (4300 < List.length ds)%nat -> hub_challenge = Some (numeral ds) ->
           answer = Raise ValueError)
     /\ (forall s, hub_challenge = Some s -> s <> "" -> PyStr.int s = None ->
           answer = Raise ValueError))
  /\ (~ granted -> answer = Raise (HTTPException 403 "Verification failed")).
Proof.
  intros granted answer. subst granted answer. split.
  - intros (-> & t & -> & Ht). destruct t as [|c t]; [now elim Ht|].
    rewrite verify_webhook_granted. unfold int_or_0.
    split; [|split; [|split; [|split]]].
    + now intros [->| ->].
    + intros s n -> E. destruct s; [discriminate E | now rewrite E].
    + intros ds Hne Hd Hlen ->.
      destruct (int_numeral ds Hne Hd Hlen) as [E _].
      destruct (numeral ds); [discriminate E | now rewrite E].
    + intros ds Hd Hlen ->.
      pose proof (int_numeral_long ds Hd Hlen) as E.
      destruct ds as [|d r]; [cbn in Hlen; lia|].
      cbn [numeral] in *. now rewrite E.
    + intros s -> Hs E. destruct s; [now elim Hs | now rewrite E].
  - intros Hno. unfold verify_webhook.
    destruct hub_mode as [m|]; [|reflexivity].
    destruct (String.eqb m "subscribe") eqn:Em; [|reflexivity].
    destruct hub_token as [[|c t]|]; try reflexivity.
    exfalso. apply Hno. apply String.eqb_eq in Em. subst m.
    split; [reflexivity|]. exists (String c t). split; [reflexivity | discriminate].
Qed.

Lemma verify_webhook_handshake_witness :
  verify_webhook (Some "subscribe") (Some "tok") (Some "12345") = Return 12345
  /\ verify_webhook (Some "subscribe") (Some "tok") None = Return 0
  /\ verify_webhook None (Some "tok") (Some "12345")
     = Raise (HTTPException 403 "Verification failed").
Proof.
  split; [|split].
  - refine (proj1 (proj2 (proj2
              (proj1 (verify_webhook_handshake (Some "subscribe") (Some "tok")
                        (Some "12345")) _)))
              [1; 2; 3; 4; 5]%nat _ _ _ eq_refl).
    + split; [reflexivity|]. exists "tok". split; [reflexivity | discriminate].
    + discriminate.
    + repeat constructor.
    + simpl. lia.
  - refine (proj1 (proj1 (verify_webhook_handshake (Some "subscribe")
                            (Some "tok") None) _) (or_introl eq_refl)).
    split; [reflexivity|]. exists "tok". split; [reflexivity | discriminate].
  - apply (proj2 (verify_webhook_handshake None (Some "tok") (Some "12345"))).
    intros [H _]. discriminate H.
Defined.

(** ** More on the comment handler *)

Lemma after_trigger_events (ev : CommentEvent.t) (st : Store) :
  exists i, events (after_trigger ev st)
            = (events st
               ++ [mkdoc i (Event.mk "comment_trigger" (CommentEvent.accountId ev)
                              (CommentEvent.model_dump ev))])%list.
Proof.
  unfold after_trigger. destruct (users_of ev st); eexists; reflexivity.
Qed.

Lemma after_trigger_next_id (ev : CommentEvent.t) (st : Store) :
  (next_id st < next_id (after_trigger ev st))%nat.
Proof.
  unfold after_trigger. destruct (users_of ev st); cbn; lia.
Qed.

(** The comment handler either fires or leaves the store as it was. *)
Lemma on_comment_cases (ev : CommentEvent.t) (st : Store) :
  on_comment ev st = (asked_follow, after_trigger ev st)
  \/ exists reason,
       In reason ["No flow assigned"; "Flow not found"; "Keyword not matched"]
       /\ on_comment ev st = (not_processed reason, st).
Proof.
  rewrite on_comment_run.
  destruct (assigns_of ev st) as [|a rest].
  { right. exists "No flow assigned". split; [now left | reflexivity]. }
  destruct (flow_docs_of a ev st) as [|f fs].
  { right. exists "Flow not found". split; [right; now left | reflexivity]. }
  rewrite on_comment_flow_run. destruct (keyword_mismatch _ _).
  - right. exists "Keyword not matched".
    split; [right; right; now left | reflexivity].
  - now left.
Qed.

(** X1.  A firing comment records one Event of type comment_trigger, for the
    account of the comment, whose payload is the comment itself, after the
    events already stored. *)
Theorem comment_trigger_recorded (ev : CommentEvent.t) (st : Store) :
  fires ev st ->
  exists i,
    events (store_after (on_comment ev) st)
    = (events st
       ++ [mkdoc i
             (Event.mk "comment_trigger" (CommentEvent.accountId ev)
                [ ("accountId", VStr (CommentEvent.accountId ev));
                  ("igMediaId", VStr (CommentEvent.igMediaId ev));
                  ("igUserId", VStr (CommentEvent.igUserId ev));
                  ("username", match CommentEvent.username ev with
                               | Some u => VStr u
                               | None => VNone
                               end);
                  ("text", VStr (CommentEvent.text ev)) ])])%list.
Proof.
  intros H. destruct (fires_inv _ _ H) as (_ & _ & E).
  unfold store_after. rewrite E. cbn [snd].
  exact (after_trigger_events ev st).
Qed.

Lemma comment_trigger_recorded_witness :
  exists i,
    events (store_after (on_comment ev_love) store1)
    = [mkdoc i
         (Event.mk "comment_trigger" "acc1"
            [ ("accountId", VStr "acc1"); ("igMediaId", VStr "media1");
              ("igUserId", VStr "user7"); ("username", VStr "ann");
              ("text", VStr "I LOVE this!") ])].
Proof.
  exact (comment_trigger_recorded ev_love store1 fires_love_store1).
Defined.

(** X2.  The comment handler writes to the store exactly when it fires: it
    answers either asked_follow, with a changed store, or processed:false
    with one of three reasons, with the store as it was. *)
Theorem on_comment_outcomes (ev : CommentEvent.t) (st : Store) :
  (result (on_comment ev) st = asked_follow
   /\ store_after (on_comment ev) st <> st)
  \/ (exists reason,
        In reason ["No flow assigned"; "Flow not found"; "Keyword not matched"]
        /\ result (on_comment ev) st = not_processed reason
        /\ store_after (on_comment ev) st = st).
Proof.
  unfold result, store_after.
  destruct (on_comment_cases ev st) as [E|(r & Hr & E)]; rewrite E; cbn [fst snd].
  - left. split; [reflexivity|]. intros Heq.
    pose proof (after_trigger_next_id ev st) as Hlt. rewrite Heq in Hlt. lia.
  - right. exists r. now repeat split.
Qed.

(** X3.  The comment handler never removes or alters a stored document: the
    assignments and the flows are left as they were, and the contacts, the
    conversations and the events are extended at the end, by at most one
    document each. *)
Theorem on_comment_append_only (ev : CommentEvent.t) (st : Store) :
  let st' := store_after (on_comment ev) st in
  assignments st' = assignments st
  /\ flows st' = flows st
  /\ (exists us, igusers st' = (igusers st ++ us)%list /\ (List.length us <= 1)%nat)
  /\ (exists cs, conversations st' = (conversations st ++ cs)%list
                 /\ (List.length cs <= 1)%nat)
  /\ (exists es, events st' = (events st ++ es)%list /\ (List.length es <= 1)%nat).
Proof.
  cbv zeta. unfold store_after.
  destruct (on_comment_cases ev st) as [E|(r & _ & E)]; rewrite E; cbn [snd].
  - destruct (after_trigger_frame ev st) as [Ea Ef].
    destruct (after_trigger_conversations ev st) as [i Hc].
    destruct (after_trigger_events ev st) as [j He].
    repeat split; try assumption.
    + rewrite after_trigger_igusers. destruct (users_of ev st).
      * eexists. split; [reflexivity | cbn; lia].
      * exists []. split; [now rewrite app_nil_r | cbn; lia].
    + eexists. split; [exact Hc | cbn; lia].
    + eexists. split; [exact He | cbn; lia].
  - repeat split; try reflexivity;
      exists []; (split; [now rewrite app_nil_r | cbn; lia]).
Qed.

Lemma after_trigger_has_contact (ev : CommentEvent.t) (st : Store) :
  exists d, In d (igusers (after_trigger ev st)) /\ contact_of ev d.
Proof.
  rewrite after_trigger_igusers.
  destruct (users_of ev st) as [|u us] eqn:E.
  - eexists. split; [apply in_or_app; right; now left | now split].
  - apply users_of_cons. now exists u, us.
Qed.

(** X4.  Two firing comments of the same user (accountId and igUserId) create at
    most one Contact: after the first, the second leaves the contacts as
    they are. *)
Theorem contact_created_once (ev ev' : CommentEvent.t) (st : Store) :
  fires ev st -> fires ev' st ->
  CommentEvent.accountId ev' = CommentEvent.accountId ev ->
  CommentEvent.igUserId ev' = CommentEvent.igUserId ev ->
  igusers (store_after (on_comment ev') (store_after (on_comment ev) st))
  = igusers (store_after (on_comment ev) st).
Proof.
  intros H H' Ea Eu.
  pose proof (fires_again ev ev' st H H') as H2.
  destruct (fires_inv _ _ H) as (_ & _ & E).
  destruct (fires_inv _ _ H2) as (_ & _ & E2).
  unfold store_after at 1. rewrite E2. cbn [snd].
  rewrite after_trigger_igusers.
  unfold store_after. rewrite E. cbn [snd].
  destruct (after_trigger_has_contact ev st) as (d & Hd & Ha' & Hu').
  assert (Hex : exists d, In d (igusers (after_trigger ev st)) /\ contact_of ev' d).
  { exists d. split; [exact Hd|]. split; congruence. }
  apply users_of_cons in Hex as (u & us & ->). reflexivity.
Qed.

Lemma contact_created_once_witness :
  igusers (store_after (on_comment ev_again) (store_after (on_comment ev_love) store1))
  = igusers (store_after (on_comment ev_love) store1).
Proof.
  apply (contact_created_once ev_love ev_again store1); reflexivity.
Defined.

(** ** Matching is by lowercased substring *)

Lemma substring_extend (k s pre post : string) :
  Substring k s -> Substring k (pre ++ s ++ post).
Proof.
  intros (p & q & ->). exists (pre ++ p), (q ++ post).
  induction pre as [|c pre IH]; simpl.
  - induction p as [|c p IHp]; simpl.
    + induction k as [|c k IHk]; simpl; [reflexivity | now rewrite IHk].
    + now rewrite IHp.
  - now rewrite IH.
Qed.

(** X5.  Keyword matching ignores letter case, and the author of the comment:
    two comments on the same media of the same account whose texts agree
    after lowercasing get the same answer. *)
Theorem comment_match_case_insensitive (ev1 ev2 : CommentEvent.t) (st : Store) :
  CommentEvent.accountId ev1 = CommentEvent.accountId ev2 ->
  CommentEvent.igMediaId ev1 = CommentEvent.igMediaId ev2 ->
  PyStr.lower (CommentEvent.text ev1) = PyStr.lower (CommentEvent.text ev2) ->
  result (on_comment ev1) st = result (on_comment ev2) st.
Proof.
  intros Ea Em Et. unfold result. rewrite !on_comment_run.
  unfold assigns_of. rewrite Ea, Em.
  destruct (find Col.assignment _ st) as [|a rest]; [reflexivity|].
  rewrite !flow_docs_of_eq, Ea.
  destruct (match (if PyStr.truthy _ then _ else _) with [] => _ | _ => _ end)
    as [|f fs]; [reflexivity|].
  rewrite !on_comment_flow_run.
  unfold keyword_mismatch. rewrite Et.
  now destruct (match map _ _ with [] => _ | _ => _ end).
Qed.

Lemma comment_match_case_insensitive_witness :
  result (on_comment ev_love) store1
  = result (on_comment (CommentEvent.mk "acc1" "media1" "user8" None "i love THIS!"))
           store1.
Proof.
  apply (comment_match_case_insensitive ev_love
           (CommentEvent.mk "acc1" "media1" "user8" None "i love THIS!") store1);
    reflexivity.
Defined.

(** X6.  A flow with the empty string among its keywords matches every comment
    that reaches the gate. *)
Theorem blank_keyword_matches_all (ev : CommentEvent.t) (st : Store)
    (flow : doc Flow.t) :
  reaches_gate ev st flow ->
  In "" (Flow.keywords (body flow)) ->
  fires ev st.
Proof.
  intros Hg Hin. apply (fires_at_gate _ _ _ Hg), keyword_mismatch_false.
  right. exists "". split; [exact Hin|].
  now exists "", (PyStr.lower (CommentEvent.text ev)).
Qed.

Lemma blank_keyword_matches_all_witness : fires ev_hello store_blank.
Proof.
  apply (blank_keyword_matches_all ev_hello store_blank
           (mkdoc "0" (Flow.mk "acc1" "any" None ["promo"; ""] [] [] [] "active" 1))).
  - now exists (mkdoc "1" (Assignment.mk "acc1" "media1" "0")), [], [].
  - right. now left.
Defined.

(** X7.  A comment on the same media of the same account whose lowercased
    text contains the lowercased text of a firing comment fires too. *)
Theorem comment_match_monotone (ev ev' : CommentEvent.t) (st : Store) :
  CommentEvent.accountId ev' = CommentEvent.accountId ev ->
  CommentEvent.igMediaId ev' = CommentEvent.igMediaId ev ->
  Substring (PyStr.lower (CommentEvent.text ev))
            (PyStr.lower (CommentEvent.text ev')) ->
  fires ev st -> fires ev' st.
Proof.
  intros Ea Em (pre & post & Et) H.
  destruct (fires_inv _ _ H) as (flow & Hg & _).
  assert (Hg' : reaches_gate ev' st flow).
  { destruct Hg as (a & rest & fs & Has & Hfs). exists a, rest, fs. split.
    - unfold assigns_of in *. now rewrite Ea, Em.
    - rewrite flow_docs_of_eq in *. now rewrite Ea. }
  apply (fires_at_gate _ _ _ Hg'), keyword_mismatch_false.
  apply (fires_at_gate _ _ _ Hg), keyword_mismatch_false in H.
  destruct H as [H|(k & Hk & Hs)]; [now left|].
  right. exists k. split; [exact Hk|].
  rewrite Et. now apply substring_extend.
Qed.

Lemma comment_match_monotone_witness :
  fires (CommentEvent.mk "acc1" "media1" "user8" None "Wow: i love THIS! so much")
        store1.
Proof.
  apply (comment_match_monotone ev_love _ store1); try reflexivity.
  apply contains_spec. reflexivity.
Defined.

(** ** More on the DM handler *)

Lemma is_space_lower_char (c : ascii) :
  PyStr.is_space (PyStr.lower_char c) = PyStr.is_space c.
Proof. destruct c as [[] [] [] [] [] [] [] []]; reflexivity. Qed.

Lemma lower_char_idem (c : ascii) :
  PyStr.lower_char (PyStr.lower_char c) = PyStr.lower_char c.
Proof. destruct c as [[] [] [] [] [] [] [] []]; reflexivity. Qed.

Lemma lower_idem (s : string) : PyStr.lower (PyStr.lower s) = PyStr.lower s.
Proof.
  induction s as [|c s IH]; [reflexivity|].
  cbn [PyStr.lower]. now rewrite lower_char_idem, IH.
Qed.

Lemma lstrip_lower (s : string) :
  PyStr.lstrip (PyStr.lower s) = PyStr.lower (PyStr.lstrip s).
Proof.
  induction s as [|c s IH]; [reflexivity|].
  cbn [PyStr.lower PyStr.lstrip]. rewrite is_space_lower_char.
  now destruct (PyStr.is_space c).
Qed.

Lemma rstrip_lower (s : string) :
  PyStr.rstrip (PyStr.lower s) = PyStr.lower (PyStr.rstrip s).
Proof.
  induction s as [|c s IH]; [reflexivity|].
  cbn [PyStr.lower PyStr.rstrip]. rewrite IH, is_space_lower_char.
  destruct (PyStr.rstrip s); [|reflexivity].
  now destruct (PyStr.is_space c).
Qed.

Lemma strip_lower (s : string) :
  PyStr.strip (PyStr.lower s) = PyStr.lower (PyStr.strip s).
Proof. unfold PyStr.strip. now rewrite lstrip_lower, rstrip_lower. Qed.

Lemma lstrip_spaces_app (ws s : string) :
  all_chars PyStr.is_space ws = true ->
  PyStr.lstrip (ws ++ s) = PyStr.lstrip s.
Proof.
  induction ws as [|c ws IH]; [reflexivity|].
  cbn [all_chars]. intros H. apply andb_true_iff in H as [Hc Hws].
  change (String c ws ++ s) with (String c (ws ++ s)).
  cbn [PyStr.lstrip]. rewrite Hc. now apply IH.
Qed.

Lemma rstrip_spaces (ws : string) :
  all_chars PyStr.is_space ws = true -> PyStr.rstrip ws = "".
Proof.
  induction ws as [|c ws IH]; [reflexivity|].
  cbn [all_chars PyStr.rstrip]. intros H. apply andb_true_iff in H as [Hc Hws].
  now rewrite (IH Hws), Hc.
Qed.

Lemma rstrip_app_spaces (s ws : string) :
  all_chars PyStr.is_space ws = true ->
  PyStr.rstrip (s ++ ws) = PyStr.rstrip s.
Proof.
  intros H. induction s as [|c s IH].
  - now rewrite rstrip_spaces.
  - change (String c s ++ ws) with (String c (s ++ ws)).
    cbn [PyStr.rstrip]. now rewrite IH.
Qed.

Lemma strip_app_spaces (s ws : string) :
  all_chars PyStr.is_space ws = true ->
  PyStr.strip (s ++ ws) = PyStr.strip s.
Proof.
  intros H. unfold PyStr.strip. induction s as [|c s IH].
  - cbn [append PyStr.lstrip PyStr.rstrip].
    assert (E : PyStr.lstrip ws = "").
    { clear -H. induction ws as [|c ws IH]; [reflexivity|].
      cbn [all_chars PyStr.lstrip] in *. apply andb_true_iff in H as [-> Hws].
      now apply IH. }
    now rewrite E.
  - change (String c s ++ ws) with (String c (s ++ ws)).
    cbn [PyStr.lstrip]. destruct (PyStr.is_space c); [exact IH|].
    change (String c (s ++ ws)) with (String c s ++ ws).
    now apply rstrip_app_spaces.
Qed.

(** Whitespace around a text does not survive [strip]. *)
Lemma strip_pad (ws1 s ws2 : string) :
  all_chars PyStr.is_space ws1 = true -> all_chars PyStr.is_space ws2 = true ->
  PyStr.strip (ws1 ++ s ++ ws2) = PyStr.strip s.
Proof.
  intros H1 H2. rewrite <- (strip_app_spaces s ws2 H2).
  unfold PyStr.strip. now rewrite lstrip_spaces_app.
Qed.

Lemma lstrip_head (s : string) :
  PyStr.lstrip s = ""
  \/ exists c r, PyStr.lstrip s = String c r /\ PyStr.is_space c = false.
Proof.
  induction s as [|c s IH]; [now left|].
  cbn [PyStr.lstrip]. destruct (PyStr.is_space c) eqn:E; [exact IH|].
  right. now exists c, s.
Qed.

Lemma rstrip_idem (s : string) : PyStr.rstrip (PyStr.rstrip s) = PyStr.rstrip s.
Proof.
  induction s as [|c s IH]; [reflexivity|].
  cbn [PyStr.rstrip]. destruct (PyStr.rstrip s) as [|d r] eqn:E.
  - destruct (PyStr.is_space c) eqn:Ec; [reflexivity|].
    cbn [PyStr.rstrip]. now rewrite Ec.
  - cbn [PyStr.rstrip]. cbn [PyStr.rstrip] in IH.
    destruct (PyStr.rstrip r) as [|e r'] eqn:Er.
    + destruct (PyStr.is_space d); [discriminate IH | now rewrite IH].
    + now rewrite IH.
Qed.

Lemma strip_idem (s : string) : PyStr.strip (PyStr.strip s) = PyStr.strip s.
Proof.
  unfold PyStr.strip.
  destruct (lstrip_head s) as [->|(c & r & -> & Hc)]; [reflexivity|].
  assert (E : PyStr.rstrip (String c r) = String c (PyStr.rstrip r)).
  { cbn [PyStr.rstrip]. destruct (PyStr.rstrip r); [now rewrite Hc | reflexivity]. }
  rewrite E. cbn [PyStr.lstrip]. rewrite Hc, <- E. apply rstrip_idem.
Qed.

Lemma on_dm_store (ev : DMEvent.t) (st : Store) :
  store_after (on_dm ev) st
  = match classify (dm_text ev) with
    | Deliver =>
        insert Col.conversation (delivery_convo ev)
          (insert Col.event (dm_event "deliver_asset" ev) st)
    | OptOut => insert Col.event (dm_event "opt_out" ev) st
    | Other => insert Col.event (dm_event "dm_other" ev) st
    end.
Proof.
  unfold store_after, classify. rewrite on_dm_run.
  destruct (str_in (dm_text ev) ["i followed"; "followed"; "yes"]);
    [reflexivity|].
  now destruct (str_in (dm_text ev) ["stop"; "unsubscribe"]).
Qed.

(** X8.  The DM handler never touches the assignments, the flows or the
    contacts, and never removes or alters a stored conversation or event:
    it adds exactly one Event, and at most one Conversation, at the end. *)
Theorem on_dm_append_only (ev : DMEvent.t) (st : Store) :
  let st' := store_after (on_dm ev) st in
  assignments st' = assignments st
  /\ flows st' = flows st
  /\ igusers st' = igusers st
  /\ (exists e, events st' = (events st ++ [e])%list
                /\ Event.accountId (body e) = DMEvent.accountId ev
                /\ Event.payload (body e)
                   = [ ("accountId", VStr (DMEvent.accountId ev));
                       ("igUserId", VStr (DMEvent.igUserId ev));
                       ("text", VStr (DMEvent.text ev)) ])
  /\ (exists cs, conversations st' = (conversations st ++ cs)%list
                 /\ (List.length cs <= 1)%nat).
Proof.
  cbv zeta. rewrite on_dm_store.
  destruct (classify (dm_text ev)); cbn;
    (repeat split; [eexists; repeat split | ]).
  - eexists. split; [reflexivity | cbn; lia].
  - exists []. split; [now rewrite app_nil_r | cbn; lia].
  - exists []. split; [now rewrite app_nil_r | cbn; lia].
Qed.

(** X9.  The DM handler ignores whitespace around the text and letter case:
    a text padded with whitespace gets the answer of any text that agrees
    with it after lowercasing, whoever sends it and whatever is stored. *)
Theorem on_dm_ignores_padding_and_case
    (ev1 ev2 : DMEvent.t) (st1 st2 : Store) (ws1 t ws2 : string) :
  all_chars PyStr.is_space ws1 = true ->
  all_chars PyStr.is_space ws2 = true ->
  DMEvent.text ev1 = ws1 ++ t ++ ws2 ->
  PyStr.lower (DMEvent.text ev2) = PyStr.lower t ->
  result (on_dm ev1) st1 = result (on_dm ev2) st2.
Proof.
  intros H1 H2 E1 E2. rewrite !on_dm_result.
  assert (E : dm_text ev1 = dm_text ev2).
  { unfold dm_text. rewrite E1, (strip_pad _ _ _ H1 H2).
    now rewrite <- !strip_lower, E2. }
  now rewrite E.
Qed.

Lemma on_dm_ignores_padding_and_case_witness :
  result (on_dm (DMEvent.mk "acc1" "user7" "  UnSubscribe
")) store1
  = result (on_dm (DMEvent.mk "acc2" "user9" "unsubscribe")) empty_store.
Proof.
  apply (on_dm_ignores_padding_and_case _ _ store1 empty_store
           "  " "UnSubscribe" "
"); reflexivity.
Defined.

(** X10.  Normalizing is idempotent: a DM whose text is the normalized text of
    another DM gets the same answer. *)
Theorem dm_normalized_reply (ev ev' : DMEvent.t) (st st' : Store) :
  DMEvent.text ev' = PyStr.lower (PyStr.strip (DMEvent.text ev)) ->
  PyStr.lower (PyStr.strip (DMEvent.text ev'))
  = PyStr.lower (PyStr.strip (DMEvent.text ev))
  /\ result (on_dm ev') st' = result (on_dm ev) st.
Proof.
  intros E.
  assert (Et : dm_text ev' = dm_text ev).
  { unfold dm_text. rewrite E.
    now rewrite <- strip_lower, lower_idem, strip_lower, strip_idem. }
  split; [exact Et|]. now rewrite !on_dm_result, Et.
Qed.

Lemma dm_normalized_reply_witness :
  result (on_dm (dm "i followed")) empty_store
  = result (on_dm (dm "  I Followed ")) store1.
Proof.
  apply (dm_normalized_reply (dm "  I Followed ") (dm "i followed")).
  reflexivity.
Defined.

(** ** More on the verification handshake *)

(** X11.  The verify token is only tested for presence: any two non-empty tokens
    get the same answer. *)
Theorem verify_token_presence_only
    (hub_mode hub_challenge : option string) (t1 t2 : string) :
  t1 <> "" -> t2 <> "" ->
  verify_webhook hub_mode (Some t1) hub_challenge
  = verify_webhook hub_mode (Some t2) hub_challenge.
Proof.
  intros H1 H2. unfold verify_webhook.
  destruct t1; [now elim H1|]. destruct t2; [now elim H2|]. reflexivity.
Qed.

Lemma verify_token_presence_only_witness :
  verify_webhook (Some "subscribe") (Some "secret") (Some "42")
  = verify_webhook (Some "subscribe") (Some "x") (Some "42").
Proof. apply verify_token_presence_only; discriminate. Defined.

Lemma int_or_0_nonempty (s : string) :
  s <> "" ->
  int_or_0 (Some s)
  = match PyStr.int s with Some n => Return n | None => Raise ValueError end.
Proof. intros H. destruct s; [now elim H | reflexivity]. Qed.

Lemma app_nonempty (a s b : string) : s <> "" -> a ++ s ++ b <> "".
Proof.
  intros H. destruct a; [|discriminate].
  destruct s; [now elim H | discriminate].
Qed.

Lemma lstrip_by_spaces_app (p : ascii -> bool) (ws s : string) :
  all_chars p ws = true ->
  PyStr.lstrip_by p (ws ++ s) = PyStr.lstrip_by p s.
Proof.
  induction ws as [|c ws IH]; [reflexivity|].
  cbn [all_chars]. intros H. apply andb_true_iff in H as [Hc Hws].
  change (String c ws ++ s) with (String c (ws ++ s)).
  cbn [PyStr.lstrip_by]. rewrite Hc. now apply IH.
Qed.

Lemma lstrip_by_spaces (p : ascii -> bool) (ws : string) :
  all_chars p ws = true -> PyStr.lstrip_by p ws = "".
Proof.
  induction ws as [|c ws IH]; [reflexivity|].
  cbn [all_chars PyStr.lstrip_by]. intros H.
  apply andb_true_iff in H as [-> Hws]. now apply IH.
Qed.

Lemma rstrip_by_spaces (p : ascii -> bool) (ws : string) :
  all_chars p ws = true -> PyStr.rstrip_by p ws = "".
Proof.
  induction ws as [|c ws IH]; [reflexivity|].
  cbn [all_chars PyStr.rstrip_by]. intros H. apply andb_true_iff in H as [Hc Hws].
  now rewrite (IH Hws), Hc.
Qed.

Lemma rstrip_by_app_spaces (p : ascii -> bool) (s ws : string) :
  all_chars p ws = true ->
  PyStr.rstrip_by p (s ++ ws) = PyStr.rstrip_by p s.
Proof.
  intros H. induction s as [|c s IH].
  - now rewrite rstrip_by_spaces.
  - change (String c s ++ ws) with (String c (s ++ ws)).
    cbn [PyStr.rstrip_by]. now rewrite IH.
Qed.

Lemma rstrip_by_head (p : ascii -> bool) (c : ascii) (s : string) :
  p c = false ->
  PyStr.rstrip_by p (String c s) = String c (PyStr.rstrip_by p s).
Proof.
  intros Hc. cbn [PyStr.rstrip_by].
  destruct (PyStr.rstrip_by p s); [now rewrite Hc | reflexivity].
Qed.

Lemma int_strip_app_spaces (s ws : string) :
  all_chars PyStr.is_int_space ws = true ->
  PyStr.int_strip (s ++ ws) = PyStr.int_strip s.
Proof.
  intros H. unfold PyStr.int_strip. induction s as [|c s IH].
  - cbn [append PyStr.lstrip_by PyStr.rstrip_by].
    now rewrite (lstrip_by_spaces _ _ H).
  - change (String c s ++ ws) with (String c (s ++ ws)).
    cbn [PyStr.lstrip_by]. destruct (PyStr.is_int_space c); [exact IH|].
    change (String c (s ++ ws)) with (String c s ++ ws).
    now apply rstrip_by_app_spaces.
Qed.

(** The whitespace [int()] skips does not survive around a numeral. *)
Lemma int_strip_pad (ws1 s ws2 : string) :
  all_chars PyStr.is_int_space ws1 = true ->
  all_chars PyStr.is_int_space ws2 = true ->
  PyStr.int_strip (ws1 ++ s ++ ws2) = PyStr.int_strip s.
Proof.
  intros H1 H2. rewrite <- (int_strip_app_spaces s ws2 H2).
  unfold PyStr.int_strip. now rewrite lstrip_by_spaces_app.
Qed.

(** X12.  The whitespace [int()] skips (TAB..CR, SPACE, NEL, NBSP) around a
    non-empty challenge is ignored.  With mode "subscribe" and a token: a
    challenge of such whitespace only is not taken for an absent one, it
    raises ValueError where the empty challenge gives 0; and a challenge
    that starts with one of the separators FS..US, which [strip] would
    remove, raises ValueError. *)
Theorem verify_challenge_whitespace
    (hub_mode hub_token : option string) (ws1 s ws2 : string) :
  all_chars PyStr.is_int_space ws1 = true ->
  all_chars PyStr.is_int_space ws2 = true ->
  s <> "" ->
  verify_webhook hub_mode hub_token (Some (ws1 ++ s ++ ws2))
  = verify_webhook hub_mode hub_token (Some s)
  /\ forall t, t <> "" ->
       (all_chars PyStr.is_int_space s = true ->
        verify_webhook (Some "subscribe") (Some t) (Some s) = Raise ValueError)
       /\ verify_webhook (Some "subscribe") (Some t) (Some "") = Return 0
       /\ (forall c, In c ["028"; "029"; "030"; "031"]%char ->
           verify_webhook (Some "subscribe") (Some t) (Some (String c s))
           = Raise ValueError).
Proof.
  intros H1 H2 Hs. split.
  - unfold verify_webhook. destruct (_ && _); [|reflexivity].
    rewrite !int_or_0_nonempty by (try apply app_nonempty; exact Hs).
    unfold PyStr.int. now rewrite (int_strip_pad _ _ _ H1 H2).
  - intros t Ht. destruct t as [|c0 t]; [now elim Ht|].
    rewrite !verify_webhook_granted. split; [|split; [reflexivity|]].
    + intros Hsp. rewrite int_or_0_nonempty by exact Hs.
      pose proof (int_strip_app_spaces "" s Hsp) as E. cbn [append] in E.
      unfold PyStr.int. rewrite E. reflexivity.
    + intros c Hc. rewrite int_or_0_nonempty by discriminate.
      unfold PyStr.int, PyStr.int_strip.
      destruct Hc as [<-|[<-|[<-|[<-|[]]]]];
        cbn [PyStr.lstrip_by]; change (PyStr.is_int_space _) with false;
        cbn iota; rewrite rstrip_by_head by reflexivity; reflexivity.
Qed.

Lemma verify_challenge_whitespace_witness :
  verify_webhook (Some "subscribe") (Some "tok") (Some "  42 ") = Return 42
  /\ verify_webhook (Some "subscribe") (Some "tok") (Some " ") = Raise ValueError
  /\ verify_webhook (Some "subscribe") (Some "tok") (Some (String "028" "42"))
     = Raise ValueError.
Proof.
  split; [|split].
  - exact (eq_trans
             (proj1 (verify_challenge_whitespace (Some "subscribe") (Some "tok")
                       "  " "42" " " eq_refl eq_refl ltac:(discriminate)))
             eq_refl).
  - apply (proj2 (verify_challenge_whitespace (Some "subscribe") (Some "tok")
                    "" " " "" eq_refl eq_refl ltac:(discriminate)) "tok").
    + discriminate.
    + reflexivity.
  - apply (proj2 (verify_challenge_whitespace (Some "subscribe") (Some "tok")
                    "" "42" "" eq_refl eq_refl ltac:(discriminate)) "tok").
    + discriminate.
    + now left.
Defined.

(** ** Analytics *)

Lemma analytics_summary_run (a : option string) (st : Store) :
  analytics_summary a st
  = (summary_of (count_events a "comment_trigger" (events st))
                (count_events a "deliver_asset" (events st))
                (count_events a "opt_out" (events st))
                (count_convos a (conversations st)), st).
Proof. reflexivity. Qed.

Lemma matches_app {A : Type} (c : Col.t A) (f g : filter_dict) (d : doc A) :
  matches c (f ++ g)%list d = matches c f d && matches c g d.
Proof. unfold matches. apply forallb_app. Qed.

Lemma account_filter_event (a : option string) (e : doc Event.t) :
  matches Col.event (account_filter a) e = true
  <-> selects a (Event.accountId (body e)).
Proof.
  unfold selects. destruct a as [[|c r]|]; cbn.
  - split; [now left | reflexivity].
  - rewrite andb_true_r, String.eqb_eq. split.
    + intros ->. now right.
    + intros [H|H]; [discriminate H | now injection H].
  - split; [now left | reflexivity].
Qed.

Lemma account_filter_convo (a : option string) (c : doc Conversation.t) :
  matches Col.conversation (account_filter a) c = true
  <-> selects a (Conversation.accountId (body c)).
Proof.
  unfold selects. destruct a as [[|ch r]|]; cbn.
  - split; [now left | reflexivity].
  - rewrite andb_true_r, String.eqb_eq. split.
    + intros ->. now right.
    + intros [H|H]; [discriminate H | now injection H].
  - split; [now left | reflexivity].
Qed.

Lemma count_events_snoc (a : option string) (ty : string)
    (es : list (doc Event.t)) (e : doc Event.t) :
  count_events a ty (es ++ [e])%list
  = (count_events a ty es
     + if matches Col.event (account_filter a) e
          && String.eqb (Event.type (body e)) ty
       then 1 else 0)%nat.
Proof.
  unfold count_events. rewrite filter_app, length_app. f_equal.
  cbn [filter]. rewrite matches_app.
  replace (matches Col.event [("type", ty)] e)
    with (String.eqb (Event.type (body e)) ty)
    by (cbn; now rewrite andb_true_r).
  now destruct (_ && _).
Qed.

Lemma count_convos_snoc (a : option string)
    (cs : list (doc Conversation.t)) (c : doc Conversation.t) :
  count_convos a (cs ++ [c])%list
  = (count_convos a cs
     + if matches Col.conversation (account_filter a) c then 1 else 0)%nat.
Proof.
  unfold count_convos. rewrite filter_app, length_app. f_equal.
  cbn [filter]. now destruct (matches _ _ c).
Qed.

Lemma selects_dec_event (a : option string) (e : doc Event.t) :
  (selects a (Event.accountId (body e))
   /\ matches Col.event (account_filter a) e = true)
  \/ (~ selects a (Event.accountId (body e))
      /\ matches Col.event (account_filter a) e = false).
Proof.
  destruct (matches Col.event (account_filter a) e) eqn:E.
  - left. split; [now apply account_filter_event | reflexivity].
  - right. split; [|reflexivity].
    intros H. apply account_filter_event in H. congruence.
Qed.

Lemma selects_convo_event (a : option string) (acc : string) i j uid ms ty p :
  matches Col.conversation (account_filter a)
    (mkdoc i (Conversation.mk acc uid ms))
  = matches Col.event (account_filter a) (mkdoc j (Event.mk ty acc p)).
Proof. destruct a as [[|c r]|]; reflexivity. Qed.

(** X13.  A firing comment raises comments_processed and conversations by one in
    the summary of its account and in the summary without a filter, and
    changes no other counter; the summary of any other account is left as
    it was. *)
Theorem summary_after_comment (ev : CommentEvent.t) (st : Store)
    (a : option string) :
  fires ev st ->
  let st' := store_after (on_comment ev) st in
  exists c d o v,
    result (analytics_summary a) st = summary_of c d o v
    /\ (selects a (CommentEvent.accountId ev) ->
        result (analytics_summary a) st' = summary_of (S c) d o (S v))
    /\ (~ selects a (CommentEvent.accountId ev) ->
        result (analytics_summary a) st' = summary_of c d o v).
Proof.
  intros H st'. subst st'.
  destruct (fires_inv _ _ H) as (_ & _ & E).
  unfold store_after, result. rewrite E, !analytics_summary_run. cbn [fst snd].
  do 4 eexists. split; [reflexivity|].
  destruct (after_trigger_events ev st) as [i ->].
  destruct (after_trigger_conversations ev st) as [j ->].
  rewrite !count_events_snoc, count_convos_snoc.
  unfold comment_convo.
  rewrite (selects_convo_event a _ j i _ _ "comment_trigger"
             (CommentEvent.model_dump ev)).
  destruct (selects_dec_event a
              (mkdoc i (Event.mk "comment_trigger" (CommentEvent.accountId ev)
                          (CommentEvent.model_dump ev)))) as [[Hs ->]|[Hs ->]];
    cbn [body Event.accountId Event.type andb String.eqb] in *;
    split; intros Hs'; try contradiction;
    cbn; rewrite ?Nat.add_0_r, ?Nat.add_1_r; reflexivity.
Qed.

Lemma summary_after_comment_witness :
  result (analytics_summary (Some "acc1")) store1 = summary_of 0 0 0 0
  /\ result (analytics_summary (Some "acc1"))
            (store_after (on_comment ev_love) store1) = summary_of 1 0 0 1.
Proof.
  destruct (summary_after_comment ev_love store1 (Some "acc1") fires_love_store1)
    as (c & d & o & v & E0 & E1 & _).
  split; [reflexivity|].
  change (result (analytics_summary (Some "acc1")) store1)
    with (summary_of 0 0 0 0) in E0.
  unfold summary_of in E0. injection E0 as Ec Ed Eo Ev.
  apply (Nat2Z.inj 0) in Ec, Ed, Eo, Ev. subst c d o v.
  exact (E1 (or_intror eq_refl)).
Defined.

(** X14.  A DM counts in the summary of its account, and in the summary without
    a filter, by its branch: Deliver raises assets_delivered and
    conversations by one, OptOut raises opt_outs by one, and any other text
    changes no counter; the summary of any other account is left as it
    was. *)
Theorem summary_after_dm (ev : DMEvent.t) (st : Store) (a : option string) :
  let st' := store_after (on_dm ev) st in
  let t := PyStr.lower (PyStr.strip (DMEvent.text ev)) in
  exists c d o v,
    result (analytics_summary a) st = summary_of c d o v
    /\ (selects a (DMEvent.accountId ev) ->
        (In t ["i followed"; "followed"; "yes"] ->
           result (analytics_summary a) st' = summary_of c (S d) o (S v))
        /\ (In t ["stop"; "unsubscribe"] ->
              result (analytics_summary a) st' = summary_of c d (S o) v)
        /\ (~ In t ["i followed"; "followed"; "yes"; "stop"; "unsubscribe"] ->
              result (analytics_summary a) st' = summary_of c d o v))
    /\ (~ selects a (DMEvent.accountId ev) ->
        result (analytics_summary a) st' = summary_of c d o v).
Proof.
  intros st' t. subst st'. change t with (dm_text ev). clear t.
  unfold result. rewrite on_dm_store, !analytics_summary_run. cbn [fst].
  do 4 eexists. split; [reflexivity|].
  split.
  - intros Hs.
    assert (Hm : forall ty, matches Col.event (account_filter a)
                   (mkdoc (fresh_id st) (dm_event ty ev)) = true)
      by (intros ty; now apply account_filter_event).
    split; [|split]; intros Hin.
    + apply str_in_spec in Hin. unfold classify. rewrite Hin. cbn [insert events conversations].
      rewrite !count_events_snoc, count_convos_snoc, Hm.
      unfold delivery_convo.
      rewrite (selects_convo_event a _ _ (fresh_id st) _ _ "deliver_asset"
                 (DMEvent.model_dump ev)).
      fold (dm_event "deliver_asset" ev). rewrite Hm.
      cbn. rewrite ?Nat.add_0_r, ?Nat.add_1_r. reflexivity.
    + destruct (opt_out_not_deliver _ Hin) as [E1 E2].
      unfold classify. rewrite E1, E2. cbn [insert events conversations].
      rewrite !count_events_snoc, Hm.
      cbn. rewrite ?Nat.add_0_r, ?Nat.add_1_r. reflexivity.
    + destruct (other_not_recognized _ Hin) as [E1 E2].
      unfold classify. rewrite E1, E2. cbn [insert events conversations].
      rewrite !count_events_snoc, Hm.
      cbn. rewrite ?Nat.add_0_r. reflexivity.
  - intros Hs.
    assert (Hm : forall ty, matches Col.event (account_filter a)
                   (mkdoc (fresh_id st) (dm_event ty ev)) = false).
    { intros ty. apply not_true_is_false. intros Hm.
      apply account_filter_event in Hm. exact (Hs Hm). }
    destruct (classify (dm_text ev)); cbn [insert events conversations];
      rewrite !count_events_snoc, ?count_convos_snoc, ?Hm;
      try (unfold delivery_convo;
           rewrite (selects_convo_event a _ _ (fresh_id st) _ _ "deliver_asset"
                      (DMEvent.model_dump ev));
           fold (dm_event "deliver_asset" ev); rewrite Hm);
      cbn; rewrite ?Nat.add_0_r; reflexivity.
Qed.

Lemma summary_after_dm_witness :
  result (analytics_summary None) (store_after (on_dm (dm "Yes")) store1)
  = summary_of 0 1 0 1
  /\ result (analytics_summary None) (store_after (on_dm (dm "what?")) store1)
     = summary_of 0 0 0 0.
Proof.
  split.
  - destruct (summary_after_dm (dm "Yes") store1 None)
      as (c & d & o & v & E0 & E1 & _).
    change (result (analytics_summary None) store1)
      with (summary_of 0 0 0 0) in E0.
    unfold summary_of in E0. injection E0 as Ec Ed Eo Ev.
    apply (Nat2Z.inj 0) in Ec, Ed, Eo, Ev. subst c d o v.
    apply (proj1 (E1 (or_introl eq_refl))). right. right. now left.
  - destruct (summary_after_dm (dm "what?") store1 None)
      as (c & d & o & v & E0 & E1 & _).
    change (result (analytics_summary None) store1)
      with (summary_of 0 0 0 0) in E0.
    unfold summary_of in E0. injection E0 as Ec Ed Eo Ev.
    apply (Nat2Z.inj 0) in Ec, Ed, Eo, Ev. subst c d o v.
    apply (proj2 (proj2 (E1 (or_introl eq_refl)))).
    intros H. cbn in H. repeat destruct H as [H|H]; discriminate || exact H.
Defined.

(** ** Flows and assignments *)

Lemma list_flows_run (a : option string) (st : Store) :
  list_flows a st = (find Col.flow (account_filter a) st, st).
Proof.
  unfold list_flows, bind. rewrite get_documents_run. unfold ret. f_equal.
  induction (find Col.flow (account_filter a) st) as [|[i f] l IH];
    [reflexivity|].
  cbn [map _id body]. now rewrite IH.
Qed.

Lemma account_filter_flow (a : option string) (d : doc Flow.t) :
  matches Col.flow (account_filter a) d = true
  <-> selects a (Flow.accountId (body d)).
Proof.
  unfold selects. destruct a as [[|c r]|]; cbn.
  - split; [now left | reflexivity].
  - rewrite andb_true_r, String.eqb_eq. split.
    + intros ->. now right.
    + intros [H|H]; [discriminate H | now injection H].
  - split; [now left | reflexivity].
Qed.

(** X15.  A created flow is listed under the identifier [POST /flows]
    returned: the list of its account, like the unfiltered list, holds the
    documents it held before and the created flow; the lists of the other
    accounts hold the documents they held before. *)
Theorem create_flow_listed (flow : Flow.t) (st : Store) (a : option string) :
  let st' := store_after (create_flow flow) st in
  exists fid,
    result (create_flow flow) st = VDict [("id", VStr fid)]
    /\ (selects a (Flow.accountId flow) ->
        Permutation (fst (list_flows a st'))
                    (mkdoc fid flow :: fst (list_flows a st)))
    /\ (~ selects a (Flow.accountId flow) ->
        Permutation (fst (list_flows a st')) (fst (list_flows a st))).
Proof.
  cbv zeta. exists (fresh_id st). split; [reflexivity|].
  rewrite !list_flows_run. cbn [fst].
  unfold store_after, create_flow, bind, create_document, ret. cbn [snd].
  unfold find. cbn [coll insert flows]. rewrite filter_app. cbn [filter].
  pose proof (account_filter_flow a (mkdoc (fresh_id st) flow)) as Hm.
  cbn [body] in Hm.
  destruct (matches Col.flow (account_filter a) (mkdoc (fresh_id st) flow)).
  - split.
    + intros _. apply Permutation_sym, Permutation_cons_append.
    + intros Hn. elim Hn. now apply Hm.
  - split.
    + intros Hs. apply Hm in Hs. discriminate Hs.
    + intros _. now rewrite app_nil_r.
Qed.

Lemma create_flow_listed_witness :
  Permutation (fst (list_flows (Some "acc1")
                      (store_after (create_flow flow_love) empty_store)))
              [mkdoc "0" flow_love]
  /\ Permutation (fst (list_flows (Some "acc2")
                         (store_after (create_flow flow_love) empty_store))) [].
Proof.
  split.
  - destruct (create_flow_listed flow_love empty_store (Some "acc1"))
      as (fid & E0 & E & _).
    injection E0 as <-. exact (E (or_intror eq_refl)).
  - destruct (create_flow_listed flow_love empty_store (Some "acc2"))
      as (fid & _ & _ & E).
    apply E. intros [H|H]; discriminate H.
Defined.

Lemma on_comment_result_eq (ev : CommentEvent.t) (st : Store) :
  result (on_comment ev) st
  = match assigns_of ev st with
    | [] => not_processed "No flow assigned"
    | a :: _ =>
        match flow_docs_of a ev st with
        | [] => not_processed "Flow not found"
        | f :: _ =>
            if keyword_mismatch (map PyStr.lower (Flow.keywords (body f)))
                                (CommentEvent.text ev)
            then not_processed "Keyword not matched"
            else asked_follow
        end
    end.
Proof.
  unfold result. rewrite on_comment_run.
  destruct (assigns_of ev st) as [|a rest]; [reflexivity|].
  destruct (flow_docs_of a ev st) as [|f fs]; [reflexivity|].
  rewrite on_comment_flow_run. now destruct (keyword_mismatch _ _).
Qed.

Lemma flow_docs_of_frame (a : doc Assignment.t) (ev : CommentEvent.t)
    (st1 st2 : Store) :
  flows st1 = flows st2 -> flow_docs_of a ev st1 = flow_docs_of a ev st2.
Proof.
  intros E. rewrite !flow_docs_of_eq. unfold find. cbn [coll]. now rewrite E.
Qed.

Lemma assigns_of_after_assign (req : AssignRequest.t) (ev : CommentEvent.t)
    (st : Store) :
  let new := mkdoc (fresh_id st) (AssignRequest.model_dump req) in
  (requested_for req ev ->
   assigns_of ev (store_after (assign_flow req) st)
   = (assigns_of ev st ++ [new])%list)
  /\ (~ requested_for req ev ->
      assigns_of ev (store_after (assign_flow req) st) = assigns_of ev st).
Proof.
  cbv zeta. unfold assigns_of, find, store_after.
  cbn [assign_flow bind create_document ret snd coll insert assignments].
  unfold assign_flow, bind, create_document, ret. cbn [snd coll insert assignments].
  rewrite filter_app. cbn [filter].
  pose proof (matches_assigned ev (mkdoc (fresh_id st) (AssignRequest.model_dump req)))
    as Hm.
  unfold assigned_to in Hm. cbn [body AssignRequest.model_dump
    Assignment.igMediaId Assignment.accountId] in Hm.
  destruct (matches Col.assignment _ (mkdoc (fresh_id st) _)).
  - split; [reflexivity|]. intros Hn. elim Hn. now apply Hm.
  - split; [|now rewrite app_nil_r].
    intros Hr. apply Hm in Hr. discriminate Hr.
Qed.

(** X16.  Assigning another media, or a media of another account, does not
    change what a comment is answered. *)
Theorem assign_elsewhere_ignored (req : AssignRequest.t) (ev : CommentEvent.t)
    (st : Store) :
  ~ requested_for req ev ->
  result (on_comment ev) (store_after (assign_flow req) st)
  = result (on_comment ev) st.
Proof.
  intros Hr. rewrite !on_comment_result_eq.
  rewrite (proj2 (assigns_of_after_assign req ev st) Hr).
  destruct (assigns_of ev st) as [|a0 rest]; [reflexivity|].
  now rewrite (flow_docs_of_frame a0 ev (store_after (assign_flow req) st) st).
Qed.

Lemma assign_elsewhere_ignored_witness :
  result (on_comment ev_love)
         (store_after (assign_flow (AssignRequest.mk "acc1" "media2" "other")) store1)
  = asked_follow.
Proof.
  rewrite (assign_elsewhere_ignored (AssignRequest.mk "acc1" "media2" "other")
             ev_love store1).
  - reflexivity.
  - intros [H _]. discriminate H.
Defined.

(** X17.  After a media is assigned, a comment on it is never answered
    "No flow assigned". *)
Theorem assign_then_comment (req : AssignRequest.t) (ev : CommentEvent.t)
    (st : Store) :
  requested_for req ev ->
  result (on_comment ev) (store_after (assign_flow req) st)
  <> not_processed "No flow assigned".
Proof.
  intros Hr. rewrite on_comment_result_eq.
  rewrite (proj1 (assigns_of_after_assign req ev st) Hr).
  destruct (assigns_of ev st) as [|a0 rest]; cbn [app];
    (destruct (flow_docs_of _ ev _) as [|f fs]; [discriminate|];
     destruct (keyword_mismatch _ _); discriminate).
Qed.

Lemma assign_then_comment_witness :
  result (on_comment ev_love)
         (store_after (assign_flow (AssignRequest.mk "acc1" "media1" "f1"))
                      empty_store)
  <> not_processed "No flow assigned".
Proof.
  apply (assign_then_comment (AssignRequest.mk "acc1" "media1" "f1") ev_love).
  now split.
Defined.

(** ** Identifiers *)

Lemma to_uint_nonnil (n : nat) : Nat.to_uint n <> Decimal.Nil.
Proof.
  rewrite <- (DecimalNat.Unsigned.of_to n) at 1.
  rewrite DecimalNat.Unsigned.to_of. apply DecimalFacts.unorm_nonnil.
Qed.

Lemma id_of_inj (n m : nat) : id_of n = id_of m -> n = m.
Proof.
  unfold id_of. intros E. apply (f_equal NilZero.uint_of_string) in E.
  rewrite !NilZero.usu in E by apply to_uint_nonnil.
  injection E as E. now apply DecimalNat.Unsigned.to_uint_inj.
Qed.

Lemma id_of_nonempty (n : nat) : id_of n <> "".
Proof.
  unfold id_of. intros E. apply (f_equal NilZero.uint_of_string) in E.
  rewrite NilZero.usu in E by apply to_uint_nonnil. discriminate E.
Qed.

Ltac perm_mid :=
  first [ apply Permutation_middle
        | apply Permutation_cons_append
        | eapply perm_trans;
          [apply Permutation_middle | apply Permutation_app_head; perm_mid] ].

Lemma all_ids_insert {A : Type} (c : Col.t A) (d : A) (st : Store) :
  Permutation (fresh_id st :: all_ids st) (all_ids (insert c d st)).
Proof.
  destruct c; unfold all_ids;
    cbn [insert assignments flows igusers conversations events];
    rewrite map_app; cbn [map _id]; rewrite <- ?app_assoc; cbn [app];
    perm_mid.
Qed.

Lemma next_id_insert {A : Type} (c : Col.t A) (d : A) (st : Store) :
  next_id (insert c d st) = S (next_id st).
Proof. now destruct c. Qed.

Lemma fresh_id_unused (st : Store) : ids_issued st -> ~ In (fresh_id st) (all_ids st).
Proof.
  intros [_ H] Hin. destruct (H _ Hin) as (n & Hlt & E).
  apply id_of_inj in E. lia.
Qed.

Lemma ids_issued_empty : ids_issued empty_store.
Proof. split; [constructor | intros i []]. Qed.

Lemma ids_issued_insert {A : Type} (c : Col.t A) (d : A) (st : Store) :
  ids_issued st -> ids_issued (insert c d st).
Proof.
  intros H. pose proof (fresh_id_unused st H) as Hfresh.
  destruct H as [Hnd Hiss]. split.
  - apply (Permutation_NoDup (all_ids_insert c d st)). now constructor.
  - intros i Hin.
    apply (Permutation_in _ (Permutation_sym (all_ids_insert c d st))) in Hin.
    rewrite next_id_insert. destruct Hin as [<-|Hin].
    + exists (next_id st). split; [lia | reflexivity].
    + destruct (Hiss i Hin) as (n & Hlt & ->). exists n. split; [lia | reflexivity].
Qed.

(** X18.  Every writing endpoint keeps the identifiers of the store pairwise
    distinct and issued by the store. *)
Theorem handlers_keep_ids (st : Store) :
  ids_issued st ->
  (forall ev, ids_issued (store_after (on_comment ev) st))
  /\ (forall ev, ids_issued (store_after (on_dm ev) st))
  /\ (forall flow, ids_issued (store_after (create_flow flow) st))
  /\ (forall req, ids_issued (store_after (assign_flow req) st)).
Proof.
  intros H. split; [|split; [|split]].
  - intros ev. unfold store_after.
    destruct (on_comment_cases ev st) as [E|(r & _ & E)]; rewrite E; cbn [snd];
      [|exact H].
    unfold after_trigger.
    destruct (users_of ev st); repeat apply ids_issued_insert; exact H.
  - intros ev. rewrite on_dm_store.
    destruct (classify (dm_text ev)); repeat apply ids_issued_insert; exact H.
  - intros flow. now apply ids_issued_insert.
  - intros req. now apply ids_issued_insert.
Qed.

Lemma handlers_keep_ids_witness :
  ids_issued (store_after (on_comment ev_love) store1)
  /\ NoDup (all_ids (store_after (on_dm (dm "yes")) store1)).
Proof.
  assert (H1 : ids_issued store1)
    by (unfold store1; repeat apply ids_issued_insert; exact ids_issued_empty).
  split.
  - apply (proj1 (handlers_keep_ids store1 H1)).
  - apply (proj1 (proj2 (handlers_keep_ids store1 H1)) (dm "yes")).
Defined.

Lemma filter_none {A : Type} (p : A -> bool) (l : list A) :
  (forall x, In x l -> p x = false) -> filter p l = [].
Proof.
  induction l as [|x l IH]; [reflexivity|]. intros H.
  cbn [filter]. rewrite (H x (or_introl eq_refl)).
  apply IH. intros y Hy. apply H. now right.
Qed.

Lemma matches_flow_id (i : string) (d : doc Flow.t) :
  matches Col.flow [("_id", i)] d = true -> _id d = i.
Proof.
  unfold matches. cbn [forallb fst snd]. intros H.
  apply andb_true_iff in H as [H _].
  destruct (field Col.flow "_id" d) as [x|] eqn:E; [|discriminate H].
  apply String.eqb_eq in H. subst x. cbn in E. now injection E.
Qed.

(** X19.  For an account without flows: a flow created for the account and
    then assigned, under the identifier returned for it, to a media without
    an assignment is the flow that gates the comments on that media; such a
    comment fires iff the flow has no keywords or one of them occurs in the
    comment. *)
Theorem flow_assign_comment (flow : Flow.t) (ev : CommentEvent.t)
    (st : Store) (fid : string) :
  ids_issued st ->
  Flow.accountId flow = CommentEvent.accountId ev ->
  (forall d, In d (flows st) ->
             Flow.accountId (body d) <> CommentEvent.accountId ev) ->
  (forall d, In d (assignments st) -> ~ assigned_to ev d) ->
  result (create_flow flow) st = VDict [("id", VStr fid)] ->
  let st1 := store_after (create_flow flow) st in
  let req := AssignRequest.mk (CommentEvent.accountId ev)
                              (CommentEvent.igMediaId ev) fid in
  let st2 := store_after (assign_flow req) st1 in
  reaches_gate ev st2 (mkdoc fid flow)
  /\ (fires ev st2
      <-> Flow.keywords flow = []
          \/ keyword_occurs (Flow.keywords flow) (CommentEvent.text ev)).
Proof.
  intros Hids Hacc Hnoflow Hnone Hfid st1 req st2.
  assert (Efid : fid = fresh_id st) by (injection Hfid as <-; reflexivity).
  apply assigns_of_nil in Hnone.
  assert (Hflows : flows st2 = (flows st ++ [mkdoc fid flow])%list)
    by (rewrite Efid; reflexivity).
  assert (Hold : forall f, (forall d, In d (flows st) -> f d = false) ->
                 filter f (flows st2) = filter f [mkdoc fid flow]).
  { intros f Hf. rewrite Hflows, filter_app.
    now rewrite (filter_none f (flows st) Hf). }
  assert (Hby_id : find Col.flow [("_id", fid)] st2 = []
                   \/ find Col.flow [("_id", fid)] st2 = [mkdoc fid flow]).
  { unfold find. cbn [coll]. rewrite Hold.
    - cbn [filter]. destruct (matches Col.flow _ (mkdoc fid flow)); auto.
    - intros d Hd. apply not_true_is_false. intros Hm.
      apply matches_flow_id in Hm.
      apply (fresh_id_unused st Hids). rewrite <- Efid, <- Hm.
      unfold all_ids. apply in_or_app. right. apply in_or_app. left.
      now apply in_map. }
  assert (Hby_acc : find Col.flow [("accountId", CommentEvent.accountId ev)] st2
                    = [mkdoc fid flow]).
  { unfold find. cbn [coll]. rewrite Hold.
    - cbn. now rewrite Hacc, String.eqb_refl.
    - intros d Hd. cbn. rewrite andb_true_r. apply String.eqb_neq.
      now apply Hnoflow. }
  assert (Hgate : reaches_gate ev st2 (mkdoc fid flow)).
  { exists (mkdoc (fresh_id st1) (AssignRequest.model_dump req)), [], [].
    split.
    - subst st2. rewrite (proj1 (assigns_of_after_assign req ev st1)) by now split.
      replace (assigns_of ev st1) with (assigns_of ev st) by reflexivity.
      now rewrite Hnone.
    - rewrite flow_docs_of_eq, Hby_acc.
      destruct (PyStr.truthy _); [|reflexivity].
      unfold req. cbn [body AssignRequest.model_dump AssignRequest.flowId
                       Assignment.flowId].
      now destruct Hby_id as [-> | ->]. }
  split; [exact Hgate|].
  rewrite (fires_at_gate _ _ _ Hgate). apply keyword_mismatch_false.
Qed.

Lemma flow_assign_comment_witness :
  fires ev_love
    (store_after (assign_flow (AssignRequest.mk "acc1" "media1" "0"))
       (store_after (create_flow flow_love) empty_store)).
Proof.
  destruct (flow_assign_comment flow_love ev_love empty_store "0"
              ids_issued_empty eq_refl) as [_ H].
  - intros d [].
  - intros d [].
  - reflexivity.
  - apply H. right. exists "love". split; [now left|].
    apply contains_spec. reflexivity.
Defined.

(** ** Listing and the empty comment *)

Lemma filter_all {A : Type} (p : A -> bool) (l : list A) :
  (forall x, p x = true) -> filter p l = l.
Proof.
  intros H. induction l as [|x l IH]; [reflexivity|].
  cbn [filter]. now rewrite H, IH.
Qed.

(** X20.  [GET /flows] with an account lists exactly the stored flows of that
    account, in stored order; without one, or with the empty string, it
    lists every stored flow; it leaves the store as it was. *)
Theorem list_flows_scope (st : Store) :
  (forall acc d, acc <> "" ->
     (In d (fst (list_flows (Some acc) st))
      <-> In d (flows st) /\ Flow.accountId (body d) = acc))
  /\ (forall acc, fst (list_flows (Some acc) st)
                  = filter (fun d => String.eqb (Flow.accountId (body d)) acc
                                     || String.eqb acc "")
                           (flows st))
  /\ fst (list_flows None st) = flows st
  /\ fst (list_flows (Some "") st) = flows st
  /\ forall a, store_after (list_flows a) st = st.
Proof.
  split; [|split; [|split; [|split]]].
  - intros acc d Hne. rewrite list_flows_run. cbn [fst].
    rewrite find_In, account_filter_flow. cbn [coll]. unfold selects.
    destruct acc as [|c r]; [now elim Hne|]. cbn [account_filter].
    split; intros [Hin H]; (split; [exact Hin|]).
    + destruct H as [H|H]; [discriminate H | now injection H].
    + right. now rewrite H.
  - intros acc. rewrite list_flows_run. cbn [fst]. unfold find. cbn [coll].
    apply filter_ext. intros d. destruct acc as [|c r].
    + cbn. now rewrite orb_true_r.
    + cbn. now rewrite andb_true_r, orb_false_r.
  - rewrite list_flows_run. now apply filter_all.
  - rewrite list_flows_run. now apply filter_all.
  - intros a. unfold store_after. now rewrite list_flows_run.
Qed.

Lemma list_flows_scope_witness :
  In (mkdoc "0" flow_love) (fst (list_flows (Some "acc1") store1)).
Proof.
  apply (proj1 (list_flows_scope store1) "acc1" (mkdoc "0" flow_love)).
  - discriminate.
  - split; [now left | reflexivity].
Defined.

Lemma lower_empty (k : string) : PyStr.lower k = "" -> k = "".
Proof. now destruct k. Qed.

Lemma substring_of_empty (k : string) : Substring k "" -> k = "".
Proof.
  intros (pre & post & E). destruct pre; [|discriminate E].
  now destruct k.
Qed.

(** X21.  A comment with an empty text that reaches the gate fires iff the flow
    has no keywords or has the empty string among them. *)
Theorem empty_comment_gate (ev : CommentEvent.t) (st : Store) (flow : doc Flow.t) :
  reaches_gate ev st flow ->
  CommentEvent.text ev = "" ->
  (fires ev st
   <-> Flow.keywords (body flow) = [] \/ In "" (Flow.keywords (body flow))).
Proof.
  intros Hg Et. rewrite (fires_at_gate _ _ _ Hg), keyword_mismatch_false, Et.
  split; (intros [H|H]; [now left | right]).
  - destruct H as (k & Hk & Hs).
    apply substring_of_empty, lower_empty in Hs. now subst k.
  - exists "". split; [exact H | now exists "", ""].
Qed.

Lemma empty_comment_gate_witness :
  ~ fires (with_text ev_love "") store1 /\ fires (with_text ev_hello "") store_blank.
Proof.
  split.
  - intros H.
    apply (empty_comment_gate (with_text ev_love "") store1 (mkdoc "0" flow_love)
             store1_reaches_gate eq_refl) in H.
    destruct H as [H|[H|[H|[]]]]; discriminate H.
  - apply (empty_comment_gate (with_text ev_hello "") store_blank
             (mkdoc "0" (Flow.mk "acc1" "any" None ["promo"; ""] [] [] [] "active" 1))).
    + now exists (mkdoc "1" (Assignment.mk "acc1" "media1" "0")), [], [].
    + reflexivity.
    + right. right. now left.
Defined.
